(** * rag-teddy: the resume endpoint, its OCR, inference and logging services

    A shallow embedding of [app/main.py], [app/services/ocr_service.py],
    [app/services/llm_service.py], [app/services/db_service.py] and
    [app/models/schemas.py], and the properties of the request handler that
    the specification states.

    Conventions.
    - A Python [str] is a list of Unicode code points; the literals of the
      source are written as they are and decoded from UTF-8 by [py].
    - A call into a library (PIL, pytesseract, pdf2image, transformers,
      pymongo, starlette's UploadFile) is an oracle that returns a value or
      raises; the oracles are fields of records that the definitions take as
      arguments.
    - Code that mutates state ([processed_results], [log_result_summary],
      the MongoDB collection) runs in the monad [M], which keeps the state
      reached when an exception is raised, as Python does.
    - Calls to [logging] loggers have no effect on control flow or on any
      value and are left out; [file.close()] and [datetime.utcnow()] are
      taken to return normally. *)

From Stdlib Require Import List ZArith NArith Lia Bool String Ascii.
From Stdlib Require Import Strings.Byte.
From Stdlib Require Import DecimalString.
From ExtLib Require Import Structures.Monad.
Import ListNotations.
Import MonadNotation.
Local Open Scope monad_scope.
Local Open Scope list_scope.

Set Implicit Arguments.

(* ------------------------------------------------------------------ *)
(** ** Python strings *)

Module PyStr.

Definition char := N.
Definition str := list char.

(** UTF-8 decoding of the bytes of a source literal. *)
Fixpoint utf8_decode (bs : list N) : str :=
  match bs with
  | [] => []
  | b :: r =>
      if (b <? 128)%N then b :: utf8_decode r
      else if (b <? 224)%N then
        match r with
        | b1 :: r1 => ((b - 192) * 64 + (b1 - 128))%N :: utf8_decode r1
        | [] => []
        end
      else if (b <? 240)%N then
        match r with
        | b1 :: b2 :: r2 =>
            ((b - 224) * 4096 + (b1 - 128) * 64 + (b2 - 128))%N :: utf8_decode r2
        | _ => []
        end
      else
        match r with
        | b1 :: b2 :: b3 :: r3 =>
            ((b - 240) * 262144 + (b1 - 128) * 4096 + (b2 - 128) * 64 + (b3 - 128))%N
              :: utf8_decode r3
        | _ => []
        end
  end.

Definition py (s : string) : str :=
  utf8_decode (map N_of_ascii (list_ascii_of_string s)).

(** The line feed. *)
Definition nl : str := [10%N].

Definition chr (s : string) : char := hd 0%N (py s).

#[global] Arguments py : simpl never.
#[global] Arguments chr : simpl never.

Definition char_eqb : char -> char -> bool := N.eqb.

Fixpoint str_eqb (a b : str) : bool :=
  match a, b with
  | [], [] => true
  | x :: a', y :: b' => char_eqb x y && str_eqb a' b'
  | _, _ => false
  end.

(** [x in xs] for a set, tuple or list of strings. *)
Definition str_in (x : str) (xs : list str) : bool := existsb (str_eqb x) xs.

#[global] Arguments str_in : simpl never.

(** [c in s] for a one-character [c]. *)
Definition char_in (c : char) (s : str) : bool := existsb (char_eqb c) s.

(** [str.isspace] on one code point (CPython's [_PyUnicode_IsWhitespace]). *)
Definition isspace (c : char) : bool :=
  ((9 <=? c) && (c <=? 13) || (28 <=? c) && (c <=? 32)
   || (c =? 133) || (c =? 160) || (c =? 5760)
   || (8192 <=? c) && (c <=? 8202)
   || (c =? 8232) || (c =? 8233) || (c =? 8239) || (c =? 8287)
   || (c =? 12288))%N.

Fixpoint lstrip (s : str) : str :=
  match s with
  | [] => []
  | c :: r => if isspace c then lstrip r else s
  end.

Definition rstrip (s : str) : str := rev (lstrip (rev s)).

(** [s.strip()] *)
Definition strip (s : str) : str := rstrip (lstrip s).

(** Truth value of a string: non-empty. *)
Definition nonempty (s : str) : bool :=
  match s with [] => false | _ :: _ => true end.

(** [s.lower()]. The letters A-Z are mapped to a-z. The case mapping of
    the code points above 127 is not reproduced: it yields no letter of
    the ASCII range that the extensions of [ALLOWED_EXTENSIONS] are made
    of (the only ASCII letters it yields at all are [k] and [i]). *)
Definition lower_char (c : char) : char :=
  if ((65 <=? c) && (c <=? 90))%N then (c + 32)%N else c.

Definition lower (s : str) : str := map lower_char s.

(** [s.split(sep)] for a one-character separator: the pieces between the
    occurrences of [sep], in order; never the empty list. *)
Fixpoint split (sep : char) (s : str) : list str :=
  match s with
  | [] => [[]]
  | c :: r =>
      if char_eqb c sep then [] :: split sep r
      else match split sep r with
           | p :: ps => (c :: p) :: ps
           | [] => [[c]]
           end
  end.

(** [sep.join(xs)] *)
Fixpoint join (sep : str) (xs : list str) : str :=
  match xs with
  | [] => []
  | [x] => x
  | x :: r => x ++ sep ++ join sep r
  end.

(** [str(n)] for a non-negative integer. *)
Definition str_of_nat (n : nat) : str :=
  py (NilEmpty.string_of_uint (Nat.to_uint n)).

(** [str(z)] for an integer. *)
Definition str_of_Z (z : Z) : str :=
  match z with
  | Zneg p => py "-" ++ str_of_nat (Pos.to_nat p)
  | _ => str_of_nat (Z.to_nat z)
  end.

End PyStr.
Import PyStr.

(* ------------------------------------------------------------------ *)
(** ** Exceptions and the two monads *)

Definition bytes := list Byte.byte.

Inductive Exc : Type :=
| Exception (text : str)                          (* any library error; [text] is [str(e)] *)
| HTTPException (status_code : Z) (detail : str)  (* fastapi.HTTPException *)
| ValidationError (text : str).                   (* pydantic.ValidationError *)

(** [str(e)]; starlette prints an HTTPException as its status and detail. *)
Definition str_exc (e : Exc) : str :=
  match e with
  | Exception text => text
  | HTTPException status_code detail => str_of_Z status_code ++ py ": " ++ detail
  | ValidationError text => text
  end.

(** The result of a call that touches no state of the model. *)
Inductive Result (A : Type) : Type :=
| Ok (a : A)
| Raise (e : Exc).
Arguments Ok {A} a.
Arguments Raise {A} e.

#[export] Instance Monad_Result : Monad Result :=
  {| ret := fun _ a => Ok a;
     bind := fun _ _ c k => match c with Ok a => k a | Raise e => Raise e end |}.

(** [try: body / except Exception as e: handler e] *)
Definition try_except {A} (body : Result A) (handler : Exc -> Result A) : Result A :=
  match body with
  | Ok a => Ok a
  | Raise e => handler e
  end.

(* ------------------------------------------------------------------ *)
(** ** app/models/schemas.py *)

Record ResumeSummary := { summary_file_name : str; summary : str }.
Record ResumeAnalysis := { analysis_file_name : str; analysis : str }.

Inductive Response : Type :=
| SummaryResponse (request_id : str) (results : list ResumeSummary)
| AnalysisResponse (request_id : str) (query_used : str) (results : list ResumeAnalysis).

(** What the handler appends to [processed_results]: a [ResumeSummary], a
    [ResumeAnalysis], or the dict [{"file_name": .., "error": ..}]. *)
Inductive ResultItem : Type :=
| ItemSummary (r : ResumeSummary)
| ItemAnalysis (r : ResumeAnalysis)
| ItemDict (file_name : str) (error : str).

Definition item_file_name (it : ResultItem) : str :=
  match it with
  | ItemSummary r => summary_file_name r
  | ItemAnalysis r => analysis_file_name r
  | ItemDict file_name _ => file_name
  end.

(** The dict [log_result_summary] of the handler. *)
Record LogResultSummary := {
  files_processed : nat;
  files_failed : nat;
  operation_type : str
}.

(** The document [log_usage] inserts. *)
Record LogDocument := {
  doc_request_id : str;
  doc_user_id : str;
  timestamp : Z;
  query_text : option str;
  result_summary : LogResultSummary
}.

(* ------------------------------------------------------------------ *)
(** ** State of a running request *)

(** The calls the handler makes, in the order it makes them. *)
Inductive Event : Type :=
| EvValidate (file_name : str)           (* one turn of the validation loop *)
| EvRead (file_name : str)               (* [file.read()] *)
| EvExtract (file_name : str)            (* [extract_text_from_*_bytes] *)
| EvClose (file_name : str)              (* [file.close()] *)
| EvInfer (file_name : str) (text : str) (* [generate_summary], [analyze_resume_with_query] *)
| EvLogUsage (request_id user_id : str) (query : option str)
             (summary : LogResultSummary)   (* [log_usage] *)
| EvResponse.                            (* the response object is built *)

Record State := {
  events : list Event;                   (* calls made so far, oldest first *)
  usage_logs : list LogDocument;         (* the MongoDB collection [usage_logs] *)
  processed_results : list ResultItem;   (* local of the handler *)
  log_result_summary : LogResultSummary  (* local of the handler *)
}.

(** Stateful code: the state reached is kept when an exception is raised. *)
Definition M (A : Type) : Type := State -> Result A * State.

#[export] Instance Monad_M : Monad M :=
  {| ret := fun _ a s => (Ok a, s);
     bind := fun _ _ c k s =>
               match c s with
               | (Ok a, s') => k a s'
               | (Raise e, s') => (Raise e, s')
               end |}.

Definition raise {A} (e : Exc) : M A := fun s => (Raise e, s).

Definition lift {A} (r : Result A) : M A := fun s => (r, s).

Definition try_except_M {A} (body : M A) (handler : Exc -> M A) : M A :=
  fun s =>
    match body s with
    | (Ok a, s') => (Ok a, s')
    | (Raise e, s') => handler e s'
    end.

Definition emit (e : Event) : M unit :=
  fun s => (Ok tt, {| events := events s ++ [e];
                      usage_logs := usage_logs s;
                      processed_results := processed_results s;
                      log_result_summary := log_result_summary s |}).

(** The state with the calls [es] added. *)
Definition add_events (es : list Event) (s : State) : State :=
  {| events := events s ++ es;
     usage_logs := usage_logs s;
     processed_results := processed_results s;
     log_result_summary := log_result_summary s |}.

(** [for x in xs: body x] *)
Fixpoint for_each {A} (xs : list A) (body : A -> M unit) : M unit :=
  match xs with
  | [] => ret tt
  | x :: r => body x ;; for_each r body
  end.

(* ------------------------------------------------------------------ *)
(** ** app/services/ocr_service.py *)

Module ocr_service.

(** A PIL image, as its pixel data. *)
Definition Image := bytes.

Record Lib := {
  Image_open : bytes -> Result Image;
    (* [Image.open(io.BytesIO(b))] *)
  image_to_string : Image -> str -> Result str;
    (* [pytesseract.image_to_string(image, lang=..)] *)
  convert_from_bytes : bytes -> Z -> Result (list Image);
    (* [pdf2image.convert_from_bytes(b, dpi=..)] *)
  Image_save : Image -> str -> Result bytes
    (* [image.save(buf, format=..)] then [buf.getvalue()] *)
}.

Definition TESSERACT_LANG : str := py "por+eng".

Section WithLib.
Variable lib : Lib.

Definition extract_text_from_image_bytes (image_bytes : bytes) : Result str :=
  try_except
    (image <- Image_open lib image_bytes ;;
     text <- image_to_string lib image TESSERACT_LANG ;;
     ret (strip text))
    (fun e => ret []).

Definition page_header (i : nat) : str :=
  nl ++ py "--- Página " ++ str_of_nat (i + 1) ++ py " ---" ++ nl.

Definition page_error_header (i : nat) : str :=
  nl ++ py "--- Página " ++ str_of_nat (i + 1) ++ py " (Erro na extração) ---" ++ nl.

(** The body of [for i, image in enumerate(images)], from index [i] on. *)
Fixpoint pdf_pages (i : nat) (images : list Image) (full_text : str) : Result str :=
  match images with
  | [] => ret full_text
  | image :: rest =>
      full_text' <-
        try_except
          (img_byte_arr <- Image_save lib image (py "PNG") ;;
           page_text <- extract_text_from_image_bytes img_byte_arr ;;
           ret (full_text ++ page_header i ++ page_text))
          (fun e_page => ret (full_text ++ page_error_header i)) ;;
      pdf_pages (S i) rest full_text'
  end.

Definition extract_text_from_pdf_bytes (pdf_bytes : bytes) : Result str :=
  let full_text := [] in
  try_except
    (images <- convert_from_bytes lib pdf_bytes 200 ;;
     full_text <- pdf_pages 0 images full_text ;;
     ret (strip full_text))
    (fun e => ret []).

(** *** The page loop, read as a function of the page. *)

(** What page [i] contributes to [full_text]. *)
Definition page_block (i : nat) (image : Image) : str :=
  match Image_save lib image (py "PNG") with
  | Raise _ => page_error_header i
  | Ok img_byte_arr =>
      match extract_text_from_image_bytes img_byte_arr with
      | Ok page_text => page_header i ++ page_text
      | Raise _ => page_error_header i
      end
  end.

Fixpoint page_blocks (i : nat) (images : list Image) : list str :=
  match images with
  | [] => []
  | image :: rest => page_block i image :: page_blocks (S i) rest
  end.

End WithLib.

End ocr_service.

(* ------------------------------------------------------------------ *)
(** ** app/services/llm_service.py *)

Module llm_service.

(** Token ids, as the tokenizer yields them and the model generates them. *)
Definition Inputs := list Z.
Definition Output := list Z.

Record GenerateArgs := {
  max_length : Z;
  min_length : option Z;
  num_beams : Z;
  early_stopping : bool
}.

Record Tokenizer := {
  tokenize : str -> Z -> Result Inputs;
    (* [tokenizer(prompt, return_tensors="pt", max_length=.., truncation=True)] *)
  decode : Output -> Result str
    (* [tokenizer.decode(o, skip_special_tokens=True)] *)
}.

Record Model := {
  generate : Inputs -> GenerateArgs -> Result Output
    (* the first sequence [model.generate(.., inputs, ..)] yields *)
}.

Record Pipeline := {
  task : str;
  pipeline_model : Model;
  pipeline_tokenizer : Tokenizer
}.

(** The loaders of [transformers]. *)
Record Hub := {
  AutoTokenizer_from_pretrained : str -> Result Tokenizer;
  AutoModelForSeq2SeqLM_from_pretrained : str -> Result Model;
  pipeline : str -> Model -> Tokenizer -> Result Pipeline
}.

(** The module's global names; [None] is a name that was never bound,
    except for [text2text_generator], which the module binds to [None]
    itself when loading fails. *)
Record Globals := {
  tokenizer : option Tokenizer;
  model : option Model;
  text2text_generator : option Pipeline
}.

Definition MODEL_NAME : str := py "google/flan-t5-small".

(** The module body: what importing the module leaves bound. *)
Definition import (hub : Hub) : Globals :=
  match AutoTokenizer_from_pretrained hub MODEL_NAME with
  | Raise _ => {| tokenizer := None; model := None; text2text_generator := None |}
  | Ok t =>
      match AutoModelForSeq2SeqLM_from_pretrained hub MODEL_NAME with
      | Raise _ => {| tokenizer := Some t; model := None; text2text_generator := None |}
      | Ok m =>
          match pipeline hub (py "text2text-generation") m t with
          | Raise _ =>
              {| tokenizer := Some t; model := Some m; text2text_generator := None |}
          | Ok p =>
              {| tokenizer := Some t; model := Some m; text2text_generator := Some p |}
          end
      end
  end.

Section WithGlobals.
Variable g : Globals.

(** Reading a global name: a name never bound raises NameError. *)
Definition the_tokenizer : Result Tokenizer :=
  match tokenizer g with
  | Some t => Ok t
  | None => Raise (Exception (py "name 'tokenizer' is not defined"))
  end.

Definition the_model : Result Model :=
  match model g with
  | Some m => Ok m
  | None => Raise (Exception (py "name 'model' is not defined"))
  end.

Definition generate_summary (text : str) (max_length min_length : Z) : Result str :=
  match text2text_generator g with
  | None => ret (py "Erro: LLM não disponível para sumarização.")
  | Some _ =>
      let prompt := py "summarize: " ++ text in
      tok <- the_tokenizer ;;
      inputs <- tokenize tok prompt 512 ;;
      try_except
        (mdl <- the_model ;;
         output <- generate mdl inputs
                     {| max_length := max_length; min_length := Some min_length;
                        num_beams := 4; early_stopping := true |} ;;
         tok <- the_tokenizer ;;
         summary <- decode tok output ;;
         ret summary)
        (fun e => ret (py "Erro ao gerar sumário."))
  end.

Definition dquote : str := [34%N].

Definition analyze_resume_with_query (resume_text query : str) (max_length : Z)
  : Result str :=
  match text2text_generator g with
  | None => ret (py "Erro: LLM não disponível para análise.")
  | Some _ =>
      let prompt :=
        py "Based on the following resume text, answer the question. Resume text: "
        ++ dquote ++ resume_text ++ dquote ++ py ". Question: "
        ++ dquote ++ query ++ dquote in
      tok <- the_tokenizer ;;
      inputs <- tokenize tok prompt 1024 ;;
      try_except
        (mdl <- the_model ;;
         output <- generate mdl inputs
                     {| max_length := max_length; min_length := None;
                        num_beams := 4; early_stopping := true |} ;;
         tok <- the_tokenizer ;;
         analysis <- decode tok output ;;
         ret analysis)
        (fun e => ret (py "Erro ao analisar currículo."))
  end.

End WithGlobals.

End llm_service.

(* ------------------------------------------------------------------ *)
(** ** app/services/db_service.py *)

Module db_service.

Inductive Client : Type := MkClient (uri : str).
Inductive Database : Type := MkDatabase (client : Client) (name : str).
Inductive Collection : Type := MkCollection (database : Database) (name : str).

Record Lib := {
  getenv : str -> option str;                  (* [os.getenv(name)] *)
  MongoClient : str -> Result Client;          (* [MongoClient(uri)] *)
  get_database : Client -> str -> Result Database;
    (* [client[name]]; the driver raises InvalidName for an empty or
       malformed name *)
  get_collection : Database -> str -> Result Collection;
    (* [db[name]] *)
  ping : Client -> Result unit;                (* [client.admin.command('ping')] *)
  collection_bool : Collection -> Result bool;
    (* [bool(collection)], the truth test that [not logs_collection]
       makes: pymongo 4 raises NotImplementedError here ("Collection
       objects do not implement truth value testing or bool()"), earlier
       drivers answer True *)
  insert_one : Collection -> LogDocument -> Result unit;
  utcnow : Z                                   (* [datetime.utcnow()] *)
}.

Record Globals := {
  client : option Client;
  db : option Database;
  logs_collection : option Collection
}.

Definition getenv_default (lib : Lib) (name default : str) : str :=
  match getenv lib name with
  | Some v => v
  | None => default
  end.

Definition MONGODB_URI (lib : Lib) : str :=
  getenv_default lib (py "MONGODB_URI") (py "mongodb://localhost:27017/").

Definition DATABASE_NAME (lib : Lib) : str :=
  getenv_default lib (py "MONGODB_DATABASE_NAME") (py "resume_analyzer_logs").

Definition unavailable : Globals :=
  {| client := None; db := None; logs_collection := None |}.

(** The module body: what importing the module leaves bound. Any of the
    four steps of the [try] block may raise; the handler then binds the
    three names to [None]. *)
Definition import (lib : Lib) : Globals :=
  match MongoClient lib (MONGODB_URI lib) with
  | Raise _ => unavailable
  | Ok c =>
      match get_database lib c (DATABASE_NAME lib) with
      | Raise _ => unavailable
      | Ok d =>
          match get_collection lib d (py "usage_logs") with
          | Raise _ => unavailable
          | Ok coll =>
              match ping lib c with
              | Raise _ => unavailable
              | Ok _ =>
                  {| client := Some c; db := Some d; logs_collection := Some coll |}
              end
          end
      end
  end.

(** [bool(logs_collection)]: [None] is false; for a collection the driver
    decides, and may raise. *)
Definition bool_of_handle (lib : Lib) (handle : option Collection) : Result bool :=
  match handle with
  | None => Ok false
  | Some coll => collection_bool lib coll
  end.

(** [logs_collection.insert_one(doc)]: when the driver accepts the
    document, it is in the collection. *)
Definition insert (lib : Lib) (handle : option Collection) (doc : LogDocument) : M unit :=
  fun s =>
    match handle with
    | None =>
        (Raise (Exception (py "'NoneType' object has no attribute 'insert_one'")), s)
    | Some coll =>
        match insert_one lib coll doc with
        | Ok _ => (Ok tt, {| events := events s;
                             usage_logs := usage_logs s ++ [doc];
                             processed_results := processed_results s;
                             log_result_summary := log_result_summary s |})
        | Raise e => (Raise e, s)
        end
    end.

(** The test [if not logs_collection:] stands before the [try] block: an
    exception of the truth test goes to the caller. *)
Definition log_usage (lib : Lib) (g : Globals)
           (request_id user_id : str) (query_text : option str)
           (result_summary : LogResultSummary) : M unit :=
  truth <- lift (bool_of_handle lib (logs_collection g)) ;;
  if negb truth then ret tt
  else
    let log_document :=
      {| doc_request_id := request_id;
         doc_user_id := user_id;
         timestamp := utcnow lib;
         query_text := query_text;
         result_summary := result_summary |} in
    try_except_M (insert lib (logs_collection g) log_document) (fun e => ret tt).

(** How a call of [log_usage] ends. *)
Definition log_outcome (lib : Lib) (g : Globals) : Result unit :=
  match bool_of_handle lib (logs_collection g) with
  | Ok _ => Ok tt
  | Raise e => Raise e
  end.

(** The truth test of the handle returns: [log_usage] does not raise. *)
Definition guard_returns (lib : Lib) (g : Globals) : Prop :=
  exists truth, bool_of_handle lib (logs_collection g) = Ok truth.

(** The documents a call of [log_usage] adds to the collection. *)
Definition logged (lib : Lib) (g : Globals)
           (request_id user_id : str) (query_text : option str)
           (result_summary : LogResultSummary) : list LogDocument :=
  match bool_of_handle lib (logs_collection g), logs_collection g with
  | Ok true, Some coll =>
      let log_document :=
        {| doc_request_id := request_id;
           doc_user_id := user_id;
           timestamp := utcnow lib;
           query_text := query_text;
           result_summary := result_summary |} in
      match insert_one lib coll log_document with
      | Ok _ => [log_document]
      | Raise _ => []
      end
  | _, _ => []
  end.

Definition add_logs (docs : list LogDocument) (s : State) : State :=
  {| events := events s;
     usage_logs := usage_logs s ++ docs;
     processed_results := processed_results s;
     log_result_summary := log_result_summary s |}.

End db_service.

(* ------------------------------------------------------------------ *)
(** ** app/main.py *)

Module main.

(** A starlette [UploadFile]: its name, its declared MIME type (absent
    when the part carries no Content-Type) and what [read()] gives. *)
Record UploadFile := {
  filename : str;
  content_type : option str;
  read : Result bytes
}.

Definition ALLOWED_EXTENSIONS : list str := [py "pdf"; py "png"; py "jpg"; py "jpeg"].
Definition ALLOWED_MIME_TYPES : list str :=
  [py "application/pdf"; py "image/png"; py "image/jpeg"].

Definition get_file_extension (filename : str) : option str :=
  if char_in (chr ".") filename
  then Some (lower (last (split (chr ".") filename) []))
  else None.

(** [x in xs] and [x == y] for an [Optional[str]] on the left. *)
Definition opt_in (x : option str) (xs : list str) : bool :=
  match x with
  | Some v => str_in v xs
  | None => false
  end.

Definition opt_eqb (x : option str) (y : str) : bool :=
  match x with
  | Some v => str_eqb v y
  | None => false
  end.

(** [if query:] the query when it is a non-empty string. *)
Definition if_query (query : option str) : option str :=
  match query with
  | Some (c :: q) => Some (c :: q)
  | _ => None
  end.

(** Updates of the handler's locals. *)
Definition set_locals (results : list ResultItem) (summary : LogResultSummary) : M unit :=
  fun s => (Ok tt, {| events := events s;
                      usage_logs := usage_logs s;
                      processed_results := results;
                      log_result_summary := summary |}).

Definition append_result (it : ResultItem) : M unit :=
  fun s => set_locals (processed_results s ++ [it]) (log_result_summary s) s.

Definition incr_files_processed : M unit :=
  fun s =>
    let d := log_result_summary s in
    set_locals (processed_results s)
               {| files_processed := files_processed d + 1;
                  files_failed := files_failed d;
                  operation_type := operation_type d |} s.

Definition incr_files_failed : M unit :=
  fun s =>
    let d := log_result_summary s in
    set_locals (processed_results s)
               {| files_processed := files_processed d;
                  files_failed := files_failed d + 1;
                  operation_type := operation_type d |} s.

Definition get_results : M (list ResultItem) := fun s => (Ok (processed_results s), s).
Definition get_summary : M LogResultSummary := fun s => (Ok (log_result_summary s), s).

Definition NO_TEXT : str := py "Nenhum texto extraído do arquivo.".

(** pydantic's check of [results] against [List[ResumeSummary]] and
    [List[ResumeAnalysis]]: every item has to be of the class. *)
Fixpoint as_summaries (items : list ResultItem) : option (list ResumeSummary) :=
  match items with
  | [] => Some []
  | ItemSummary r :: rest => option_map (cons r) (as_summaries rest)
  | _ :: _ => None
  end.

Fixpoint as_analyses (items : list ResultItem) : option (list ResumeAnalysis) :=
  match items with
  | [] => Some []
  | ItemAnalysis r :: rest => option_map (cons r) (as_analyses rest)
  | _ :: _ => None
  end.

Section Endpoint.

(** The services the module imports. *)
Variable extract_text_from_pdf_bytes : bytes -> Result str.
Variable extract_text_from_image_bytes : bytes -> Result str.
Variable generate_summary : str -> Result str.
Variable analyze_resume_with_query : str -> str -> Result str.
Variable log_usage : str -> str -> option str -> LogResultSummary -> M unit.

(** The order in which the interpreter iterates over the set
    [ALLOWED_MIME_TYPES], and the text of pydantic's error. *)
Variable iter_ALLOWED_MIME_TYPES : list str.
Variable validation_text : list ResultItem -> str.

Definition new_SummaryResponse (request_id : str) (results : list ResultItem)
  : M Response :=
  match as_summaries results with
  | Some rs => ret (SummaryResponse request_id rs)
  | None => raise (ValidationError (validation_text results))
  end.

Definition new_AnalysisResponse (request_id query_used : str)
           (results : list ResultItem) : M Response :=
  match as_analyses results with
  | Some rs => ret (AnalysisResponse request_id query_used rs)
  | None => raise (ValidationError (validation_text results))
  end.

(** One turn of the loop "Validação dos arquivos". *)
Definition validate_file (file : UploadFile) : M unit :=
  emit (EvValidate (filename file)) ;;
  if negb (opt_in (content_type file) ALLOWED_MIME_TYPES) then
    raise (HTTPException 400
             (py "Tipo de arquivo inválido: " ++ filename file
              ++ py ". Tipos permitidos: "
              ++ join (py ", ") iter_ALLOWED_MIME_TYPES))
  else
    let ext := get_file_extension (filename file) in
    if match ext with
       | None => true
       | Some e => negb (nonempty e) || negb (str_in e ALLOWED_EXTENSIONS)
       end
    then raise (HTTPException 400
                  (py "Extensão de arquivo inválida: " ++ filename file))
    else ret tt.

(** The result for a file in the mode of the request. *)
Definition append_in_mode (query : option str) (file_name text : str) : M unit :=
  match if_query query with
  | Some _ =>
      append_result
        (ItemAnalysis {| analysis_file_name := file_name; analysis := text |})
  | None =>
      append_result
        (ItemSummary {| summary_file_name := file_name; summary := text |})
  end.

(** From [await file.close()] to the end of the [try] block. *)
Definition after_extraction (query : option str) (file : UploadFile)
           (text_content : str) : M unit :=
  emit (EvClose (filename file)) ;;
  if negb (nonempty (strip text_content)) then
    append_in_mode query (filename file) NO_TEXT ;;
    incr_files_failed
  else
    match if_query query with
    | Some q =>
        emit (EvInfer (filename file) text_content) ;;
        analysis_result <- lift (analyze_resume_with_query text_content q) ;;
        append_result
          (ItemAnalysis {| analysis_file_name := filename file;
                           analysis := analysis_result |})
    | None =>
        emit (EvInfer (filename file) text_content) ;;
        summary_result <- lift (generate_summary text_content) ;;
        append_result
          (ItemSummary {| summary_file_name := filename file;
                          summary := summary_result |})
    end ;;
    incr_files_processed.

(** The [try] block of the second loop. *)
Definition try_file (query : option str) (file : UploadFile) : M unit :=
  emit (EvRead (filename file)) ;;
  file_bytes <- lift (read file) ;;
  if opt_eqb (content_type file) (py "application/pdf") then
    emit (EvExtract (filename file)) ;;
    text_content <- lift (extract_text_from_pdf_bytes file_bytes) ;;
    after_extraction query file text_content
  else if opt_in (content_type file) [py "image/png"; py "image/jpeg"] then
    emit (EvExtract (filename file)) ;;
    text_content <- lift (extract_text_from_image_bytes file_bytes) ;;
    after_extraction query file text_content
  else
    append_result
      (ItemDict (filename file)
                (py "Tipo de arquivo não suportado ou erro na leitura inicial.")) ;;
    incr_files_failed.

(** One turn of the second loop: the [try] block and its handler. *)
Definition process_file (query : option str) (file : UploadFile) : M unit :=
  try_except_M
    (try_file query file)
    (fun e =>
       let error_message := py "Erro ao processar o arquivo: " ++ str_exc e in
       append_in_mode query (filename file) error_message ;;
       incr_files_failed).

Definition process_resumes_endpoint (files : list UploadFile)
           (user_id request_id : str) (query : option str) : M Response :=
  set_locals []
    {| files_processed := 0;
       files_failed := 0;
       operation_type := match if_query query with
                         | None => py "summary"
                         | Some _ => py "analysis"
                         end |} ;;
  for_each files validate_file ;;
  for_each files (process_file query) ;;
  summary <- get_summary ;;
  emit (EvLogUsage request_id user_id query summary) ;;
  log_usage request_id user_id query summary ;;
  results <- get_results ;;
  emit EvResponse ;;
  match if_query query with
  | Some q => new_AnalysisResponse request_id q results
  | None => new_SummaryResponse request_id results
  end.

(** *** The second loop, read as a function of the file.
    [turn query file] is what one turn of the loop does: the calls it
    makes, the item it appends and whether the file counts as processed.
    [process_file] is proved below to do exactly this. *)

Record Turn := {
  calls : list Event;
  item : ResultItem;
  processed : bool
}.

Definition mode_item (query : option str) (file_name text : str) : ResultItem :=
  match if_query query with
  | Some _ => ItemAnalysis {| analysis_file_name := file_name; analysis := text |}
  | None => ItemSummary {| summary_file_name := file_name; summary := text |}
  end.

Definition error_item (query : option str) (file : UploadFile) (e : Exc) : ResultItem :=
  mode_item query (filename file) (py "Erro ao processar o arquivo: " ++ str_exc e).

(** The extraction the MIME type of the file selects, if any. *)
Definition extract (file : UploadFile) (file_bytes : bytes) : option (Result str) :=
  if opt_eqb (content_type file) (py "application/pdf")
  then Some (extract_text_from_pdf_bytes file_bytes)
  else if opt_in (content_type file) [py "image/png"; py "image/jpeg"]
       then Some (extract_text_from_image_bytes file_bytes)
       else None.

(** The inference the mode of the request selects. *)
Definition infer (query : option str) (text : str) : Result str :=
  match if_query query with
  | Some q => analyze_resume_with_query text q
  | None => generate_summary text
  end.

Definition turn (query : option str) (file : UploadFile) : Turn :=
  let name := filename file in
  match read file with
  | Raise e =>
      {| calls := [EvRead name]; item := error_item query file e; processed := false |}
  | Ok file_bytes =>
      match extract file file_bytes with
      | None =>
          {| calls := [EvRead name];
             item := ItemDict name
                       (py "Tipo de arquivo não suportado ou erro na leitura inicial.");
             processed := false |}
      | Some (Raise e) =>
          {| calls := [EvRead name; EvExtract name];
             item := error_item query file e; processed := false |}
      | Some (Ok text) =>
          if negb (nonempty (strip text)) then
            {| calls := [EvRead name; EvExtract name; EvClose name];
               item := mode_item query name NO_TEXT; processed := false |}
          else
            match infer query text with
            | Raise e =>
                {| calls := [EvRead name; EvExtract name; EvClose name; EvInfer name text];
                   item := error_item query file e; processed := false |}
            | Ok r =>
                {| calls := [EvRead name; EvExtract name; EvClose name; EvInfer name text];
                   item := mode_item query name r; processed := true |}
            end
      end
  end.

(** A call of the [try] block raises [e] for the file: reading it, its
    extraction, or the inference on its (non-blank) text. *)
Definition raises_in_try (query : option str) (file : UploadFile) (e : Exc) : Prop :=
  read file = Raise e
  \/ (exists file_bytes,
        read file = Ok file_bytes /\ extract file file_bytes = Some (Raise e))
  \/ (exists file_bytes text,
        read file = Ok file_bytes
        /\ extract file file_bytes = Some (Ok text)
        /\ forallb isspace text = false
        /\ infer query text = Raise e).

(** The calls of the second loop for a file whose MIME type selects an
    extraction: read, extract, close, infer, in this order, up to the first
    of them that raises, and without the inference when the text is found
    blank. *)
Inductive file_calls (file : UploadFile) : list Event -> Prop :=
| calls_read_raises (e : Exc) :
    read file = Raise e ->
    file_calls file [EvRead (filename file)]
| calls_extract_raises (file_bytes : bytes) (e : Exc) :
    read file = Ok file_bytes ->
    extract file file_bytes = Some (Raise e) ->
    file_calls file [EvRead (filename file); EvExtract (filename file)]
| calls_blank_text (file_bytes : bytes) (text : str) :
    read file = Ok file_bytes ->
    extract file file_bytes = Some (Ok text) ->
    forallb isspace text = true ->
    file_calls file [EvRead (filename file); EvExtract (filename file);
                     EvClose (filename file)]
| calls_inferred (file_bytes : bytes) (text : str) :
    read file = Ok file_bytes ->
    extract file file_bytes = Some (Ok text) ->
    forallb isspace text = false ->
    file_calls file [EvRead (filename file); EvExtract (filename file);
                     EvClose (filename file); EvInfer (filename file) text].

Definition count_summary (ts : list Turn) (d : LogResultSummary) : LogResultSummary :=
  {| files_processed := files_processed d + List.length (filter processed ts);
     files_failed := files_failed d + List.length (filter (fun t => negb (processed t)) ts);
     operation_type := operation_type d |}.

(** The state after the turns [ts]. *)
Definition record_turns (ts : list Turn) (s : State) : State :=
  {| events := events s ++ flat_map calls ts;
     usage_logs := usage_logs s;
     processed_results := processed_results s ++ map item ts;
     log_result_summary := count_summary ts (log_result_summary s) |}.

End Endpoint.

(** *** Validation, in the words of the specification. *)

Definition passes_validation (file : UploadFile) : Prop :=
  (exists m, content_type file = Some m /\ In m ALLOWED_MIME_TYPES)
  /\ (exists e, get_file_extension (filename file) = Some e /\ In e ALLOWED_EXTENSIONS).

Definition fails_validation (file : UploadFile) : Prop :=
  (forall m, content_type file = Some m -> ~ In m ALLOWED_MIME_TYPES)
  \/ (forall e, get_file_extension (filename file) = Some e -> ~ In e ALLOWED_EXTENSIONS).

Definition validations (files : list UploadFile) : list Event :=
  map (fun f => EvValidate (filename f)) files.

Definition item_text (it : ResultItem) : str :=
  match it with
  | ItemSummary r => summary r
  | ItemAnalysis r => analysis r
  | ItemDict _ error => error
  end.

Definition results_file_names (r : Response) : list str :=
  match r with
  | SummaryResponse _ results => map summary_file_name results
  | AnalysisResponse _ _ results => map analysis_file_name results
  end.

Definition response_request_id (r : Response) : str :=
  match r with
  | SummaryResponse request_id _ => request_id
  | AnalysisResponse request_id _ _ => request_id
  end.

(** The results of a response, as pairs of a file name and the text of its
    [summary] or [analysis] field. *)
Definition results_of (r : Response) : list (str * str) :=
  match r with
  | SummaryResponse _ results =>
      map (fun x => (summary_file_name x, summary x)) results
  | AnalysisResponse _ _ results =>
      map (fun x => (analysis_file_name x, analysis x)) results
  end.

Definition is_response (e : Event) : bool :=
  match e with
  | EvResponse => true
  | _ => false
  end.

Definition is_log_call (e : Event) : bool :=
  match e with
  | EvLogUsage _ _ _ _ => true
  | _ => false
  end.

Definition is_extract_or_infer (e : Event) : bool :=
  match e with
  | EvRead _ | EvExtract _ | EvInfer _ _ => true
  | _ => false
  end.

End main.

(* ------------------------------------------------------------------ *)
(** ** The application: the handler linked with its services *)

Module app.

(** Everything outside the repository that a request runs against. *)
Record Env := {
  ocr : ocr_service.Lib;
  mongo : db_service.Lib;
  iter_mime : list str;
  validation_text : list ResultItem -> str
}.

(** The module globals that importing the services leaves behind. *)
Record Globals := {
  llm : llm_service.Globals;
  dbg : db_service.Globals
}.

Definition import (hub : llm_service.Hub) (env : Env) : Globals :=
  {| llm := llm_service.import hub; dbg := db_service.import (mongo env) |}.

Definition process_resumes_endpoint (env : Env) (g : Globals)
  : list main.UploadFile -> str -> str -> option str -> M Response :=
  main.process_resumes_endpoint
    (ocr_service.extract_text_from_pdf_bytes (ocr env))
    (ocr_service.extract_text_from_image_bytes (ocr env))
    (fun text => llm_service.generate_summary (llm g) text 150 30)
    (fun text query => llm_service.analyze_resume_with_query (llm g) text query 200)
    (db_service.log_usage (mongo env) (dbg g))
    (iter_mime env)
    (validation_text env).

End app.

(* ------------------------------------------------------------------ *)
(** ** The outcome of a request, as a value *)

Section Outcome.

Variable extract_text_from_pdf_bytes : bytes -> Result str.
Variable extract_text_from_image_bytes : bytes -> Result str.
Variable generate_summary : str -> Result str.
Variable analyze_resume_with_query : str -> str -> Result str.
Variable lib : db_service.Lib.
Variable g : db_service.Globals.

Local Abbreviation turn :=
  (main.turn extract_text_from_pdf_bytes extract_text_from_image_bytes
             generate_summary analyze_resume_with_query).

(** The dict [log_result_summary] when the handler starts and when the
    second loop is over. *)
Definition opening_summary (query : option str) : LogResultSummary :=
  {| files_processed := 0;
     files_failed := 0;
     operation_type := match main.if_query query with
                       | None => py "summary"
                       | Some _ => py "analysis"
                       end |}.

Definition closing_summary (query : option str) (files : list main.UploadFile)
  : LogResultSummary :=
  main.count_summary (map (turn query) files) (opening_summary query).

(** The response to a request whose files pass validation. *)
Definition built_response (query : option str) (request_id : str)
           (files : list main.UploadFile) : Response :=
  match main.if_query query with
  | Some q =>
      AnalysisResponse request_id q
        (map (fun f => {| analysis_file_name := main.filename f;
                          analysis := main.item_text (main.item (turn query f)) |}) files)
  | None =>
      SummaryResponse request_id
        (map (fun f => {| summary_file_name := main.filename f;
                          summary := main.item_text (main.item (turn query f)) |}) files)
  end.

(** How a request whose files pass validation ends: with the response,
    or with the exception [log_usage] raised. *)
Definition closing_result (query : option str) (request_id : str)
           (files : list main.UploadFile) : Result Response :=
  match db_service.log_outcome lib g with
  | Ok _ => Ok (built_response query request_id files)
  | Raise e => Raise e
  end.

(** The state in which it ends. *)
Definition closing_state (files : list main.UploadFile) (user_id request_id : str)
           (query : option str) (s : State) : State :=
  {| events := events s ++ main.validations files
                 ++ flat_map main.calls (map (turn query) files)
                 ++ [EvLogUsage request_id user_id query (closing_summary query files)]
                 ++ match db_service.log_outcome lib g with
                    | Ok _ => [EvResponse]
                    | Raise _ => []
                    end;
     usage_logs := usage_logs s
                     ++ db_service.logged lib g request_id user_id query
                          (closing_summary query files);
     processed_results := map main.item (map (turn query) files);
     log_result_summary := closing_summary query files |}.

(** The locals as the handler sets them before the first loop. *)
Definition opening_state (query : option str) (s : State) : State :=
  {| events := events s;
     usage_logs := usage_logs s;
     processed_results := [];
     log_result_summary := opening_summary query |}.

End Outcome.

(* ------------------------------------------------------------------ *)
(** ** A small concrete world, to run the definitions on *)

Module Sample.

Definition text_bytes (s : string) : bytes := map byte_of_ascii (list_ascii_of_string s).

Definition read_text (b : bytes) : str := map Byte.to_N b.

Definition starts_with (c : Byte.byte) (b : bytes) : bool :=
  match b with
  | x :: _ => Byte.eqb x c
  | [] => false
  end.

Fixpoint split_bytes (sep : Byte.byte) (b : bytes) : list bytes :=
  match b with
  | [] => [[]]
  | x :: r =>
      if Byte.eqb x sep then [] :: split_bytes sep r
      else match split_bytes sep r with
           | p :: ps => (x :: p) :: ps
           | [] => [[x]]
           end
  end.

(** An OCR stack that reads the bytes of an image as its text. It cannot
    open an empty image, cannot read an image that starts with [?], cannot
    save one that starts with [!], and takes the pages of a PDF to be
    separated by [|]; an empty PDF cannot be converted. *)
Definition ocr_lib : ocr_service.Lib :=
  {| ocr_service.Image_open := fun b =>
       match b with
       | [] => Raise (Exception (py "cannot identify image file"))
       | _ => Ok b
       end;
     ocr_service.image_to_string := fun image lang =>
       if starts_with "?"%byte image
       then Raise (Exception (py "tesseract failed"))
       else Ok (read_text image);
     ocr_service.convert_from_bytes := fun b dpi =>
       match b with
       | [] => Raise (Exception (py "Unable to get page count"))
       | _ => Ok (split_bytes "|"%byte b)
       end;
     ocr_service.Image_save := fun image format =>
       if starts_with "!"%byte image
       then Raise (Exception (py "cannot write image"))
       else Ok image |}.

(** A tokenizer whose tokens are the code points of the prompt and that
    refuses a prompt with [#] in it, and a model that repeats its input. *)
Definition the_tokenizer : llm_service.Tokenizer :=
  {| llm_service.tokenize := fun prompt max_length =>
       if char_in (chr "#") prompt
       then Raise (Exception (py "cannot encode"))
       else Ok (map Z.of_N prompt);
     llm_service.decode := fun o => Ok (map Z.to_N o) |}.

Definition the_model : llm_service.Model :=
  {| llm_service.generate := fun inputs args => Ok inputs |}.

Definition hub : llm_service.Hub :=
  {| llm_service.AutoTokenizer_from_pretrained := fun name => Ok the_tokenizer;
     llm_service.AutoModelForSeq2SeqLM_from_pretrained := fun name => Ok the_model;
     llm_service.pipeline := fun task m t =>
       Ok {| llm_service.task := task;
             llm_service.pipeline_model := m;
             llm_service.pipeline_tokenizer := t |} |}.

(** A hub that cannot be reached. *)
Definition offline_hub : llm_service.Hub :=
  {| llm_service.AutoTokenizer_from_pretrained := fun name =>
       Raise (Exception (py "connection error"));
     llm_service.AutoModelForSeq2SeqLM_from_pretrained := fun name => Ok the_model;
     llm_service.pipeline := fun task m t =>
       Ok {| llm_service.task := task;
             llm_service.pipeline_model := m;
             llm_service.pipeline_tokenizer := t |} |}.

(** The text of the NotImplementedError of pymongo 4. *)
Definition no_truth_value : Exc :=
  Exception (py "Collection objects do not implement truth value testing or bool(). Please compare with None instead: collection is not None").

(** A MongoDB server that answers, reached with pymongo 4 (a collection
    has no truth value); the same server reached with an earlier driver (a
    collection is true); a server whose inserts fail; and no server. *)
Definition mongo_up : db_service.Lib :=
  {| db_service.getenv := fun name => None;
     db_service.MongoClient := fun uri => Ok (db_service.MkClient uri);
     db_service.get_database := fun c name => Ok (db_service.MkDatabase c name);
     db_service.get_collection := fun d name => Ok (db_service.MkCollection d name);
     db_service.ping := fun c => Ok tt;
     db_service.collection_bool := fun coll => Raise no_truth_value;
     db_service.insert_one := fun coll doc => Ok tt;
     db_service.utcnow := 1700000000 |}.

Definition mongo_legacy : db_service.Lib :=
  {| db_service.getenv := fun name => None;
     db_service.MongoClient := fun uri => Ok (db_service.MkClient uri);
     db_service.get_database := fun c name => Ok (db_service.MkDatabase c name);
     db_service.get_collection := fun d name => Ok (db_service.MkCollection d name);
     db_service.ping := fun c => Ok tt;
     db_service.collection_bool := fun coll => Ok true;
     db_service.insert_one := fun coll doc => Ok tt;
     db_service.utcnow := 1700000000 |}.

Definition mongo_read_only : db_service.Lib :=
  {| db_service.getenv := fun name => None;
     db_service.MongoClient := fun uri => Ok (db_service.MkClient uri);
     db_service.get_database := fun c name => Ok (db_service.MkDatabase c name);
     db_service.get_collection := fun d name => Ok (db_service.MkCollection d name);
     db_service.ping := fun c => Ok tt;
     db_service.collection_bool := fun coll => Ok true;
     db_service.insert_one := fun coll doc => Raise (Exception (py "not primary"));
     db_service.utcnow := 1700000000 |}.

Definition mongo_down : db_service.Lib :=
  {| db_service.getenv := fun name => None;
     db_service.MongoClient := fun uri => Ok (db_service.MkClient uri);
     db_service.get_database := fun c name => Ok (db_service.MkDatabase c name);
     db_service.get_collection := fun d name => Ok (db_service.MkCollection d name);
     db_service.ping := fun c => Raise (Exception (py "connection refused"));
     db_service.collection_bool := fun coll => Raise no_truth_value;
     db_service.insert_one := fun coll doc => Raise (Exception (py "connection refused"));
     db_service.utcnow := 1700000000 |}.

Definition env_with (m : db_service.Lib) : app.Env :=
  {| app.ocr := ocr_lib;
     app.mongo := m;
     app.iter_mime := main.ALLOWED_MIME_TYPES;
     app.validation_text := fun items => py "validation error" |}.

Definition env : app.Env := env_with mongo_up.

Definition globals : app.Globals := app.import hub env.

Definition cv_pdf : main.UploadFile :=
  {| main.filename := py "cv.pdf";
     main.content_type := Some (py "application/pdf");
     main.read := Ok (text_bytes "Python dev|AWS") |}.

Definition foto_png : main.UploadFile :=
  {| main.filename := py "foto.PNG";
     main.content_type := Some (py "image/png");
     main.read := Ok (text_bytes "Java") |}.

Definition vazio_jpg : main.UploadFile :=
  {| main.filename := py "vazio.jpg";
     main.content_type := Some (py "image/jpeg");
     main.read := Ok (text_bytes "   ") |}.

Definition cerquilha_png : main.UploadFile :=
  {| main.filename := py "cerquilha.png";
     main.content_type := Some (py "image/png");
     main.read := Ok (text_bytes "C# dev") |}.

Definition notas_txt : main.UploadFile :=
  {| main.filename := py "notas.txt";
     main.content_type := Some (py "text/plain");
     main.read := Ok (text_bytes "notas") |}.

(** The handler of the application in this world. *)
Definition run := app.process_resumes_endpoint env globals.

(** The handler of the application started without a MongoDB server: the
    log collection handle is [None]. *)
Definition env_unlogged : app.Env := env_with mongo_down.
Definition globals_unlogged : app.Globals := app.import hub env_unlogged.
Definition run_unlogged := app.process_resumes_endpoint env_unlogged globals_unlogged.

(** The handler of the application started with a MongoDB server and the
    earlier driver. *)
Definition env_legacy : app.Env := env_with mongo_legacy.
Definition globals_legacy : app.Globals := app.import hub env_legacy.
Definition run_legacy := app.process_resumes_endpoint env_legacy globals_legacy.

Definition start : State :=
  {| events := [];
     usage_logs := [];
     processed_results := [];
     log_result_summary :=
       {| files_processed := 0; files_failed := 0; operation_type := [] |} |}.

End Sample.

(* ================================================================== *)
(** * Properties *)

Unset Implicit Arguments.

(* ------------------------------------------------------------------ *)
(** ** Strings *)

Lemma str_eqb_spec (a b : str) : reflect (a = b) (str_eqb a b).
Proof.
  revert b; induction a as [|x a IH]; intros [|y b]; simpl;
    try (constructor; congruence).
  unfold char_eqb. destruct (N.eqb_spec x y) as [->|ne]; simpl.
  - destruct (IH b) as [->|ne]; constructor; congruence.
  - constructor; congruence.
Qed.

Lemma str_eqb_eq (a b : str) : str_eqb a b = true <-> a = b.
Proof. destruct (str_eqb_spec a b); split; congruence. Qed.

Lemma str_eqb_refl (a : str) : str_eqb a a = true.
Proof. now apply str_eqb_eq. Qed.

Lemma str_in_In (x : str) (xs : list str) : str_in x xs = true <-> In x xs.
Proof.
  unfold str_in. rewrite existsb_exists. split.
  - intros [y [Hy E]]. apply str_eqb_eq in E. now subst.
  - intros H. exists x. split; [assumption | apply str_eqb_refl].
Qed.

Example py_ascii : py "pdf" = [112; 100; 102]%N.
Proof. reflexivity. Qed.

Example py_utf8 : py "extraído" = [101; 120; 116; 114; 97; 237; 100; 111]%N.
Proof. reflexivity. Qed.

Example split_ex : split (chr ".") (py "a.b.") = [py "a"; py "b"; []].
Proof. reflexivity. Qed.

Example strip_ex : strip (py "  a b" ++ nl ++ py " ") = py "a b".
Proof. reflexivity. Qed.

Example str_of_nat_ex : str_of_nat 12 = py "12" /\ str_of_nat 0 = py "0".
Proof. split; reflexivity. Qed.


Lemma opt_in_In (x : option str) (xs : list str) :
  main.opt_in x xs = true <-> exists v, x = Some v /\ In v xs.
Proof.
  destruct x as [v|]; simpl.
  - rewrite str_in_In. split.
    + intros H. now exists v.
    + intros [w [E H]]. now inversion E; subst.
  - split; [discriminate | intros [w [E _]]; discriminate].
Qed.

Lemma lstrip_nil_iff (s : str) : lstrip s = [] <-> forallb isspace s = true.
Proof.
  induction s as [|c r IH]; simpl; [tauto|].
  destruct (isspace c); simpl; [exact IH|].
  split; discriminate.
Qed.

Lemma lstrip_head (s : str) (c : char) (r : str) :
  lstrip s = c :: r -> isspace c = false.
Proof.
  induction s as [|x s IH]; simpl; [discriminate|].
  destruct (isspace x) eqn:Hx; [exact IH|].
  intros E. inversion E; subst. exact Hx.
Qed.

Lemma forallb_rev {A} (p : A -> bool) (l : list A) :
  forallb p (rev l) = true -> forallb p l = true.
Proof.
  rewrite !forallb_forall. intros H x Hx. apply H. now apply in_rev in Hx.
Qed.

(** A string strips to the empty string exactly when it is empty or made
    of whitespace only. *)
Lemma strip_nil_iff (s : str) : strip s = [] <-> forallb isspace s = true.
Proof.
  unfold strip, rstrip. split.
  - intros H.
    assert (lstrip (rev (lstrip s)) = []) as H1.
    { destruct (lstrip (rev (lstrip s))) as [|c r]; [reflexivity|].
      simpl in H. destruct (rev r); discriminate. }
    apply lstrip_nil_iff in H1. apply forallb_rev in H1.
    destruct (lstrip s) as [|c r] eqn:E.
    + now apply lstrip_nil_iff.
    + apply lstrip_head in E. simpl in H1. rewrite E in H1. discriminate.
  - intros H. apply lstrip_nil_iff in H. rewrite H. reflexivity.
Qed.

Lemma nonempty_strip (s : str) : nonempty (strip s) = negb (forallb isspace s).
Proof.
  destruct (forallb isspace s) eqn:E.
  - apply strip_nil_iff in E. now rewrite E.
  - destruct (strip s) as [|c r] eqn:Es; [|reflexivity].
    apply strip_nil_iff in Es. congruence.
Qed.

(* ------------------------------------------------------------------ *)
(** ** The monads *)

Lemma for_each_cons {A} (x : A) (r : list A) (body : A -> M unit) (s : State) :
  for_each (x :: r) body s
  = match body x s with
    | (Ok _, s') => for_each r body s'
    | (Raise e, s') => (Raise e, s')
    end.
Proof. reflexivity. Qed.

(* ------------------------------------------------------------------ *)
(** ** ocr_service *)

Section OcrFacts.

Variable lib : ocr_service.Lib.

Lemma image_never_raises (b : bytes) :
  exists text, ocr_service.extract_text_from_image_bytes lib b = Ok text.
Proof.
  unfold ocr_service.extract_text_from_image_bytes.
  destruct (ocr_service.Image_open lib b) as [image|e]; simpl; [|now eexists].
  destruct (ocr_service.image_to_string lib image ocr_service.TESSERACT_LANG);
    simpl; now eexists.
Qed.

(** The page loop appends the blocks of its pages, one after the other. *)
Lemma pdf_pages_blocks (images : list ocr_service.Image) :
  forall (i : nat) (full_text : str),
    ocr_service.pdf_pages lib i images full_text
    = Ok (full_text ++ List.concat (ocr_service.page_blocks lib i images)).
Proof.
  induction images as [|image rest IH]; intros i full_text; simpl.
  - now rewrite app_nil_r.
  - unfold ocr_service.page_block.
    destruct (ocr_service.Image_save lib image (py "PNG")) as [png|e]; simpl.
    + destruct (ocr_service.extract_text_from_image_bytes lib png) as [t|e]; simpl;
        rewrite IH, <- app_assoc; reflexivity.
    + rewrite IH, <- app_assoc; reflexivity.
Qed.

Lemma page_blocks_length (images : list ocr_service.Image) :
  forall i, List.length (ocr_service.page_blocks lib i images) = List.length images.
Proof. induction images as [|image rest IH]; intros i; simpl; [|rewrite IH]; reflexivity. Qed.

Lemma page_blocks_nth (images : list ocr_service.Image) :
  forall i k image,
    nth_error images k = Some image ->
    nth_error (ocr_service.page_blocks lib i images) k
    = Some (ocr_service.page_block lib (i + k) image).
Proof.
  induction images as [|x rest IH]; intros i [|k] image H; simpl in *; try discriminate.
  - inversion H; subst. now rewrite Nat.add_0_r.
  - rewrite (IH (S i) k image H). now rewrite Nat.add_succ_r.
Qed.

Lemma pdf_text (pdf_bytes : bytes) :
  ocr_service.extract_text_from_pdf_bytes lib pdf_bytes
  = match ocr_service.convert_from_bytes lib pdf_bytes 200 with
    | Ok images => Ok (strip (List.concat (ocr_service.page_blocks lib 0 images)))
    | Raise _ => Ok []
    end.
Proof.
  unfold ocr_service.extract_text_from_pdf_bytes.
  destruct (ocr_service.convert_from_bytes lib pdf_bytes 200) as [images|e]; simpl;
    [|reflexivity].
  now rewrite pdf_pages_blocks.
Qed.

End OcrFacts.

(** C9. [extract_text_from_image_bytes] and [extract_text_from_pdf_bytes]
    never raise: whatever the bytes and whatever the libraries do, each
    returns a string. When the image cannot be opened or read, the image
    function returns the empty string; when the PDF cannot be converted to
    images, the PDF function returns the empty string. *)
Theorem C9_extraction_never_raises (lib : ocr_service.Lib) (b : bytes) :
  (exists text, ocr_service.extract_text_from_image_bytes lib b = Ok text)
  /\ (exists text, ocr_service.extract_text_from_pdf_bytes lib b = Ok text)
  /\ (forall e, ocr_service.Image_open lib b = Raise e ->
        ocr_service.extract_text_from_image_bytes lib b = Ok [])
  /\ (forall image e,
        ocr_service.Image_open lib b = Ok image ->
        ocr_service.image_to_string lib image ocr_service.TESSERACT_LANG = Raise e ->
        ocr_service.extract_text_from_image_bytes lib b = Ok [])
  /\ (forall e, ocr_service.convert_from_bytes lib b 200 = Raise e ->
        ocr_service.extract_text_from_pdf_bytes lib b = Ok []).
Proof.
  repeat split.
  - apply image_never_raises.
  - rewrite pdf_text.
    destruct (ocr_service.convert_from_bytes lib b 200); now eexists.
  - intros e H. unfold ocr_service.extract_text_from_image_bytes. now rewrite H.
  - intros image e Ho Hs. unfold ocr_service.extract_text_from_image_bytes.
    rewrite Ho. simpl. now rewrite Hs.
  - intros e H. rewrite pdf_text. now rewrite H.
Qed.

Lemma C9_extraction_never_raises_witness :
  ocr_service.extract_text_from_image_bytes Sample.ocr_lib [] = Ok []
  /\ ocr_service.extract_text_from_image_bytes Sample.ocr_lib (Sample.text_bytes "?x")
     = Ok []
  /\ ocr_service.extract_text_from_pdf_bytes Sample.ocr_lib [] = Ok [].
Proof.
  split; [|split].
  - exact (proj1 (proj2 (proj2 (C9_extraction_never_raises Sample.ocr_lib [])))
             (Exception (py "cannot identify image file")) eq_refl).
  - exact (proj1 (proj2 (proj2 (proj2
             (C9_extraction_never_raises Sample.ocr_lib (Sample.text_bytes "?x")))))
             (Sample.text_bytes "?x") (Exception (py "tesseract failed"))
             eq_refl eq_refl).
  - exact (proj2 (proj2 (proj2 (proj2 (C9_extraction_never_raises Sample.ocr_lib []))))
             (Exception (py "Unable to get page count")) eq_refl).
Defined.

(** C7, claim as stated, fails: a PDF of two pages whose first page the OCR
    engine cannot read. The page contributes its plain header with no text,
    not the error header. *)
Lemma C7_counterexample :
  ocr_service.convert_from_bytes Sample.ocr_lib (Sample.text_bytes "?um|dois") 200
  = Ok [Sample.text_bytes "?um"; Sample.text_bytes "dois"]
  /\ ocr_service.image_to_string Sample.ocr_lib (Sample.text_bytes "?um")
       ocr_service.TESSERACT_LANG
     = Raise (Exception (py "tesseract failed"))
  /\ ocr_service.extract_text_from_pdf_bytes Sample.ocr_lib (Sample.text_bytes "?um|dois")
     = Ok (py "--- Página 1 ---" ++ nl ++ nl ++ py "--- Página 2 ---" ++ nl ++ py "dois")
  /\ ocr_service.extract_text_from_pdf_bytes Sample.ocr_lib (Sample.text_bytes "?um|dois")
     <> Ok (strip (ocr_service.page_error_header 0
                   ++ ocr_service.page_header 1 ++ py "dois")).
Proof.
  split; [reflexivity|]. split; [reflexivity|]. split; [vm_compute; reflexivity|].
  vm_compute. discriminate.
Qed.

(** C7, amended. When the PDF converts to images, the result is the
    concatenation, in page order, of one block per page, stripped of leading
    and trailing whitespace. The block of page [i] (counted from 0) is the
    header of page [i+1] followed by the text extracted from the page; that
    text is empty when the OCR engine fails on the page. Only a page whose
    image cannot be saved as PNG contributes the error header instead. No
    page stops the remaining ones. *)
Theorem C7_pdf_pages (lib : ocr_service.Lib) (pdf_bytes : bytes)
        (images : list ocr_service.Image) :
  ocr_service.convert_from_bytes lib pdf_bytes 200 = Ok images ->
  exists blocks : list str,
    ocr_service.extract_text_from_pdf_bytes lib pdf_bytes
    = Ok (strip (List.concat blocks))
    /\ List.length blocks = List.length images
    /\ forall i image,
         nth_error images i = Some image ->
         (forall e, ocr_service.Image_save lib image (py "PNG") = Raise e ->
            nth_error blocks i = Some (ocr_service.page_error_header i))
         /\ (forall png, ocr_service.Image_save lib image (py "PNG") = Ok png ->
               exists page_text,
                 ocr_service.extract_text_from_image_bytes lib png = Ok page_text
                 /\ nth_error blocks i = Some (ocr_service.page_header i ++ page_text))
         /\ (forall png opened e,
               ocr_service.Image_save lib image (py "PNG") = Ok png ->
               ocr_service.Image_open lib png = Ok opened ->
               ocr_service.image_to_string lib opened ocr_service.TESSERACT_LANG = Raise e ->
               nth_error blocks i = Some (ocr_service.page_header i)).
Proof.
  intros Hc. exists (ocr_service.page_blocks lib 0 images).
  split; [rewrite pdf_text, Hc; reflexivity|].
  split; [apply page_blocks_length|].
  intros i image Hi.
  rewrite (page_blocks_nth lib images 0 i image Hi). simpl.
  unfold ocr_service.page_block. repeat split.
  - intros e He. now rewrite He.
  - intros png Hp. rewrite Hp.
    destruct (image_never_raises lib png) as [t Ht]. exists t. now rewrite Ht.
  - intros png opened e Hp Ho Hs. rewrite Hp.
    unfold ocr_service.extract_text_from_image_bytes. rewrite Ho. simpl. rewrite Hs.
    simpl. now rewrite app_nil_r.
Qed.

Lemma C7_pdf_pages_witness :
  exists blocks : list str,
    ocr_service.extract_text_from_pdf_bytes Sample.ocr_lib
      (Sample.text_bytes "um|?dois|!tres")
    = Ok (strip (List.concat blocks))
    /\ nth_error blocks 0 = Some (ocr_service.page_header 0 ++ py "um")
    /\ nth_error blocks 1 = Some (ocr_service.page_header 1)
    /\ nth_error blocks 2 = Some (ocr_service.page_error_header 2).
Proof.
  destruct (C7_pdf_pages Sample.ocr_lib (Sample.text_bytes "um|?dois|!tres")
              [Sample.text_bytes "um"; Sample.text_bytes "?dois";
               Sample.text_bytes "!tres"] eq_refl)
    as [blocks [Ht [_ Hb]]].
  exists blocks. split; [exact Ht|]. split; [|split].
  - destruct (Hb 0 (Sample.text_bytes "um") eq_refl) as [_ [H _]].
    destruct (H (Sample.text_bytes "um") eq_refl) as [t [E Hn]].
    injection E as <-. exact Hn.
  - destruct (Hb 1 (Sample.text_bytes "?dois") eq_refl) as [_ [_ H]].
    exact (H (Sample.text_bytes "?dois") (Sample.text_bytes "?dois")
             (Exception (py "tesseract failed")) eq_refl eq_refl eq_refl).
  - destruct (Hb 2 (Sample.text_bytes "!tres") eq_refl) as [H _].
    exact (H (Exception (py "cannot write image")) eq_refl).
Defined.

(* ------------------------------------------------------------------ *)
(** ** main: the two loops *)

Lemma state_ext (a b : State) :
  events a = events b ->
  usage_logs a = usage_logs b ->
  processed_results a = processed_results b ->
  log_result_summary a = log_result_summary b ->
  a = b.
Proof. destruct a, b; simpl; intros; subst; reflexivity. Qed.

Lemma summary_ext (a b : LogResultSummary) :
  files_processed a = files_processed b ->
  files_failed a = files_failed b ->
  operation_type a = operation_type b ->
  a = b.
Proof. destruct a, b; simpl; intros; subst; reflexivity. Qed.

Ltac run :=
  cbn;
  unfold main.append_result, main.incr_files_failed, main.incr_files_processed,
    main.set_locals, main.get_results, main.get_summary, emit, lift, raise;
  cbn.

Ltac same_state :=
  run; apply f_equal; apply state_ext; cbn;
  [ rewrite <- ?app_assoc; reflexivity
  | reflexivity
  | rewrite <- ?app_assoc; reflexivity
  | apply summary_ext; cbn; try reflexivity; lia ].

Section LoopFacts.

Variable extract_text_from_pdf_bytes : bytes -> Result str.
Variable extract_text_from_image_bytes : bytes -> Result str.
Variable generate_summary : str -> Result str.
Variable analyze_resume_with_query : str -> str -> Result str.

Local Abbreviation turn :=
  (main.turn extract_text_from_pdf_bytes extract_text_from_image_bytes
             generate_summary analyze_resume_with_query).
Local Abbreviation process_file :=
  (main.process_file extract_text_from_pdf_bytes extract_text_from_image_bytes
                     generate_summary analyze_resume_with_query).

(** One turn of the second loop does what [turn] says, and never raises. *)
Lemma process_file_turn (query : option str) (file : main.UploadFile) (s : State) :
  process_file query file s = (Ok tt, main.record_turns [turn query file] s).
Proof.
  unfold main.process_file, try_except_M, main.try_file, main.turn, main.extract,
    main.error_item, main.mode_item, main.append_in_mode.
  run.
  destruct (main.read file) as [file_bytes|e];
    run.
  2: { destruct (main.if_query query); same_state. }
  destruct (main.opt_eqb (main.content_type file) (py "application/pdf"));
    run.
  - destruct (extract_text_from_pdf_bytes file_bytes) as [text|e];
    run.
    2: { destruct (main.if_query query); same_state. }
    unfold main.after_extraction, main.infer, main.append_in_mode. cbn.
    destruct (negb (nonempty (strip text)));
    run.
    + destruct (main.if_query query); same_state.
    + destruct (main.if_query query) as [q|];
    run.
      * destruct (analyze_resume_with_query text q); same_state.
      * destruct (generate_summary text); same_state.
  - destruct (main.opt_in (main.content_type file) [py "image/png"; py "image/jpeg"]);
      cbn.
    2: { same_state. }
    destruct (extract_text_from_image_bytes file_bytes) as [text|e];
    run.
    2: { destruct (main.if_query query); same_state. }
    unfold main.after_extraction, main.infer, main.append_in_mode. cbn.
    destruct (negb (nonempty (strip text)));
    run.
    + destruct (main.if_query query); same_state.
    + destruct (main.if_query query) as [q|];
    run.
      * destruct (analyze_resume_with_query text q); same_state.
      * destruct (generate_summary text); same_state.
Qed.

Lemma record_turns_app (ts1 ts2 : list main.Turn) (s : State) :
  main.record_turns ts2 (main.record_turns ts1 s) = main.record_turns (ts1 ++ ts2) s.
Proof.
  apply state_ext; cbn.
  - now rewrite flat_map_app, app_assoc.
  - reflexivity.
  - now rewrite map_app, app_assoc.
  - apply summary_ext; cbn; rewrite ?filter_app, ?length_app; solve [reflexivity | lia].
Qed.

(** The second loop appends the turns of the files, in order. *)
Lemma second_loop (query : option str) (files : list main.UploadFile) :
  forall s : State,
    for_each files (process_file query) s
    = (Ok tt, main.record_turns (map (turn query) files) s).
Proof.
  induction files as [|file rest IH]; intros s.
  - cbn. apply f_equal. apply state_ext; cbn; rewrite ?app_nil_r; try reflexivity.
    apply summary_ext; cbn; solve [reflexivity | lia].
  - rewrite for_each_cons, process_file_turn, IH. now rewrite record_turns_app.
Qed.

End LoopFacts.

(* ------------------------------------------------------------------ *)
(** ** main: validation *)

Lemma allowed_extension_nonempty (e : str) :
  In e main.ALLOWED_EXTENSIONS -> nonempty e = true.
Proof.
  unfold main.ALLOWED_EXTENSIONS. simpl.
  intros [<-|[<-|[<-|[<-|[]]]]]; reflexivity.
Qed.

Lemma passes_or_fails (file : main.UploadFile) :
  main.passes_validation file \/ main.fails_validation file.
Proof.
  unfold main.passes_validation, main.fails_validation.
  destruct (main.opt_in (main.content_type file) main.ALLOWED_MIME_TYPES) eqn:Hm.
  - apply opt_in_In in Hm.
    destruct (main.get_file_extension (main.filename file)) as [e|] eqn:He.
    + destruct (str_in e main.ALLOWED_EXTENSIONS) eqn:Hi.
      * left. split; [exact Hm|]. exists e. split; [reflexivity|]. now apply str_in_In.
      * right. right. intros e' E Hin. inversion E; subst.
        apply str_in_In in Hin. congruence.
    + right. right. intros e' E. discriminate.
  - right. left. intros m E Hin.
    assert (main.opt_in (main.content_type file) main.ALLOWED_MIME_TYPES = true) as Ht
      by (apply opt_in_In; now exists m).
    congruence.
Qed.

Lemma passes_not_fails (file : main.UploadFile) :
  main.passes_validation file -> main.fails_validation file -> False.
Proof.
  intros [[m [Em Hm]] [e [Ee He]]] [H|H].
  - exact (H m Em Hm).
  - exact (H e Ee He).
Qed.

Section ValidationFacts.

Variable iter_ALLOWED_MIME_TYPES : list str.

Local Abbreviation validate_file := (main.validate_file iter_ALLOWED_MIME_TYPES).

Lemma validate_file_passes (file : main.UploadFile) (s : State) :
  main.passes_validation file ->
  validate_file file s = (Ok tt, add_events [EvValidate (main.filename file)] s).
Proof.
  intros [Hm [e [Ee He]]].
  unfold main.validate_file. apply opt_in_In in Hm. run. rewrite Hm. cbn.
  rewrite Ee. rewrite (allowed_extension_nonempty e He).
  rewrite (proj2 (str_in_In e main.ALLOWED_EXTENSIONS) He). cbn. reflexivity.
Qed.

Lemma validate_file_fails (file : main.UploadFile) :
  main.fails_validation file ->
  exists detail, forall s,
    validate_file file s
    = (Raise (HTTPException 400 detail), add_events [EvValidate (main.filename file)] s).
Proof.
  intros H. unfold main.validate_file.
  destruct (main.opt_in (main.content_type file) main.ALLOWED_MIME_TYPES) eqn:Hm.
  2: { eexists; intros s; run; reflexivity. }
  destruct H as [H|H].
  - apply opt_in_In in Hm. destruct Hm as [m [Em Hin]]. destruct (H m Em Hin).
  - destruct (main.get_file_extension (main.filename file)) as [e|] eqn:Ee.
    2: { eexists; intros s; run; reflexivity. }
    destruct (str_in e main.ALLOWED_EXTENSIONS) eqn:Hi.
    + apply str_in_In in Hi. destruct (H e eq_refl Hi).
    + rewrite orb_true_r. eexists; intros s; run; reflexivity.
Qed.

Lemma add_events_app (es1 es2 : list Event) (s : State) :
  add_events es2 (add_events es1 s) = add_events (es1 ++ es2) s.
Proof. apply state_ext; cbn; try reflexivity. now rewrite app_assoc. Qed.

(** The first loop accepts the files when each passes. *)
Lemma first_loop_accepts (files : list main.UploadFile) :
  Forall main.passes_validation files ->
  forall s, for_each files validate_file s
            = (Ok tt, add_events (main.validations files) s).
Proof.
  induction 1 as [|file rest Hf Hrest IH]; intros s.
  - cbn. apply f_equal. apply state_ext; cbn; rewrite ?app_nil_r; reflexivity.
  - rewrite for_each_cons, (validate_file_passes file s Hf), IH.
    now rewrite add_events_app.
Qed.

(** The first loop stops at the first file that fails, with status 400,
    having looked at the files up to that one only. *)
Lemma first_loop_rejects (files : list main.UploadFile) :
  Exists main.fails_validation files ->
  exists k detail,
    k < List.length files
    /\ forall s,
         for_each files validate_file s
         = (Raise (HTTPException 400 detail),
            add_events (main.validations (firstn (S k) files)) s).
Proof.
  induction files as [|file rest IH]; intros Hex.
  - inversion Hex.
  - destruct (passes_or_fails file) as [Hp|Hf].
    + assert (Exists main.fails_validation rest) as Hrest.
      { inversion Hex; subst; [destruct (passes_not_fails file Hp H0)|assumption]. }
      destruct (IH Hrest) as [k [detail [Hk Hrun]]].
      exists (S k), detail. split; [simpl; lia|]. intros s.
      rewrite for_each_cons, (validate_file_passes file s Hp), Hrun.
      now rewrite add_events_app.
    + destruct (validate_file_fails file Hf) as [detail Hrun].
      exists 0, detail. split; [simpl; lia|]. intros s.
      rewrite for_each_cons, Hrun. reflexivity.
Qed.

End ValidationFacts.

(* ------------------------------------------------------------------ *)
(** ** db_service *)

Lemma add_logs_nil (s : State) : db_service.add_logs [] s = s.
Proof. apply state_ext; cbn; rewrite ?app_nil_r; reflexivity. Qed.

(** A call of [log_usage] ends as [log_outcome] says, and adds to the
    collection what [logged] says. *)
Lemma log_usage_run (lib : db_service.Lib) (g : db_service.Globals)
      (request_id user_id : str) (query_text : option str)
      (result_summary : LogResultSummary) (s : State) :
  db_service.log_usage lib g request_id user_id query_text result_summary s
  = (db_service.log_outcome lib g,
     db_service.add_logs
       (db_service.logged lib g request_id user_id query_text result_summary) s).
Proof.
  unfold db_service.log_usage, db_service.logged, db_service.log_outcome,
    db_service.bool_of_handle.
  destruct (db_service.logs_collection g) as [coll|]; cbn.
  2: { now rewrite add_logs_nil. }
  destruct (db_service.collection_bool lib coll) as [[|]|e]; cbn.
  - unfold try_except_M, db_service.insert.
    destruct (db_service.insert_one lib coll _); cbn.
    + reflexivity.
    + now rewrite add_logs_nil.
  - now rewrite add_logs_nil.
  - now rewrite add_logs_nil.
Qed.

(** When the truth test of the handle raises, so does [log_usage], with
    the state as it found it. *)
Lemma log_usage_raises (lib : db_service.Lib) (g : db_service.Globals)
      (coll : db_service.Collection) (e : Exc)
      (request_id user_id : str) (query_text : option str)
      (result_summary : LogResultSummary) (s : State) :
  db_service.logs_collection g = Some coll ->
  db_service.collection_bool lib coll = Raise e ->
  db_service.log_usage lib g request_id user_id query_text result_summary s
  = (Raise e, s).
Proof.
  intros Hc He. rewrite log_usage_run.
  unfold db_service.log_outcome, db_service.logged, db_service.bool_of_handle.
  rewrite Hc, He. now rewrite add_logs_nil.
Qed.

Lemma log_outcome_returns (lib : db_service.Lib) (g : db_service.Globals) :
  db_service.guard_returns lib g -> db_service.log_outcome lib g = Ok tt.
Proof.
  intros [truth H]. unfold db_service.log_outcome. now rewrite H.
Qed.

Lemma log_outcome_raises (lib : db_service.Lib) (g : db_service.Globals)
      (coll : db_service.Collection) (e : Exc) :
  db_service.logs_collection g = Some coll ->
  db_service.collection_bool lib coll = Raise e ->
  db_service.log_outcome lib g = Raise e
  /\ forall request_id user_id query_text result_summary,
       db_service.logged lib g request_id user_id query_text result_summary = [].
Proof.
  intros Hc He.
  unfold db_service.log_outcome, db_service.logged, db_service.bool_of_handle.
  rewrite Hc, He. split; reflexivity.
Qed.

Lemma log_outcome_cases (lib : db_service.Lib) (g : db_service.Globals) :
  db_service.guard_returns lib g /\ db_service.log_outcome lib g = Ok tt
  \/ exists coll e,
       db_service.logs_collection g = Some coll
       /\ db_service.collection_bool lib coll = Raise e
       /\ db_service.log_outcome lib g = Raise e.
Proof.
  unfold db_service.guard_returns, db_service.log_outcome, db_service.bool_of_handle.
  destruct (db_service.logs_collection g) as [coll|].
  - destruct (db_service.collection_bool lib coll) as [truth|e] eqn:Hb.
    + left. split; [now exists truth|reflexivity].
    + right. exists coll, e. repeat split. exact Hb.
  - left. split; [now exists false|reflexivity].
Qed.

(* ------------------------------------------------------------------ *)
(** ** main: the handler *)

Lemma bind_M_run {A B} (c : M A) (k : A -> M B) (s : State) :
  bind c k s
  = match c s with
    | (Ok a, s') => k a s'
    | (Raise e, s') => (Raise e, s')
    end.
Proof. reflexivity. Qed.

Lemma as_analyses_mode (query : option str) (q : str) (text : main.UploadFile -> str)
      (files : list main.UploadFile) :
  main.if_query query = Some q ->
  main.as_analyses (map (fun f => main.mode_item query (main.filename f) (text f)) files)
  = Some (map (fun f => {| analysis_file_name := main.filename f;
                           analysis := text f |}) files).
Proof.
  intros Hq. induction files as [|f rest IH]; [reflexivity|].
  cbn. unfold main.mode_item at 1. rewrite Hq. cbn. now rewrite IH.
Qed.

Lemma as_summaries_mode (query : option str) (text : main.UploadFile -> str)
      (files : list main.UploadFile) :
  main.if_query query = None ->
  main.as_summaries (map (fun f => main.mode_item query (main.filename f) (text f)) files)
  = Some (map (fun f => {| summary_file_name := main.filename f;
                           summary := text f |}) files).
Proof.
  intros Hq. induction files as [|f rest IH]; [reflexivity|].
  cbn. unfold main.mode_item at 1. rewrite Hq. cbn. now rewrite IH.
Qed.

Section HandlerFacts.

Variable extract_text_from_pdf_bytes : bytes -> Result str.
Variable extract_text_from_image_bytes : bytes -> Result str.
Variable generate_summary : str -> Result str.
Variable analyze_resume_with_query : str -> str -> Result str.
Variable lib : db_service.Lib.
Variable g : db_service.Globals.
Variable iter_ALLOWED_MIME_TYPES : list str.
Variable validation_text : list ResultItem -> str.

Local Abbreviation turn :=
  (main.turn extract_text_from_pdf_bytes extract_text_from_image_bytes
             generate_summary analyze_resume_with_query).
Local Abbreviation extract :=
  (main.extract extract_text_from_pdf_bytes extract_text_from_image_bytes).
Local Abbreviation endpoint :=
  (main.process_resumes_endpoint
     extract_text_from_pdf_bytes extract_text_from_image_bytes
     generate_summary analyze_resume_with_query
     (db_service.log_usage lib g) iter_ALLOWED_MIME_TYPES validation_text).

(** A file that passes validation has an extraction. *)
Lemma extract_some (file : main.UploadFile) (file_bytes : bytes) :
  main.passes_validation file ->
  extract file file_bytes = Some (extract_text_from_pdf_bytes file_bytes)
  \/ extract file file_bytes = Some (extract_text_from_image_bytes file_bytes).
Proof.
  intros [[m [Em Hm]] _]. unfold main.extract. rewrite Em.
  unfold main.ALLOWED_MIME_TYPES in Hm. simpl in Hm.
  destruct Hm as [<-|[<-|[<-|[]]]]; [left|right|right]; reflexivity.
Qed.

(** Its item is in the field of the mode and carries its name. *)
Lemma turn_item_passes (query : option str) (file : main.UploadFile) :
  main.passes_validation file ->
  main.item (turn query file)
  = main.mode_item query (main.filename file) (main.item_text (main.item (turn query file))).
Proof.
  intros Hp. unfold main.turn, main.error_item, main.mode_item.
  destruct (main.read file) as [file_bytes|e].
  2: { destruct (main.if_query query); cbn; reflexivity. }
  destruct (extract_some file file_bytes Hp) as [E|E]; rewrite E.
  - destruct (extract_text_from_pdf_bytes file_bytes) as [text|e].
    2: { destruct (main.if_query query); cbn; reflexivity. }
    destruct (negb (nonempty (strip text))).
    + destruct (main.if_query query); cbn; reflexivity.
    + destruct (main.infer generate_summary analyze_resume_with_query query text);
        destruct (main.if_query query); cbn; reflexivity.
  - destruct (extract_text_from_image_bytes file_bytes) as [text|e].
    2: { destruct (main.if_query query); cbn; reflexivity. }
    destruct (negb (nonempty (strip text))).
    + destruct (main.if_query query); cbn; reflexivity.
    + destruct (main.infer generate_summary analyze_resume_with_query query text);
        destruct (main.if_query query); cbn; reflexivity.
Qed.

Lemma items_pass (query : option str) (files : list main.UploadFile) :
  Forall main.passes_validation files ->
  map main.item (map (turn query) files)
  = map (fun f => main.mode_item query (main.filename f)
                    (main.item_text (main.item (turn query f)))) files.
Proof.
  induction 1 as [|f rest Hf Hrest IH]; [reflexivity|].
  cbn [map]. rewrite IH. f_equal. apply (turn_item_passes query f Hf).
Qed.

End HandlerFacts.

Section HandlerRuns.

Variable extract_text_from_pdf_bytes : bytes -> Result str.
Variable extract_text_from_image_bytes : bytes -> Result str.
Variable generate_summary : str -> Result str.
Variable analyze_resume_with_query : str -> str -> Result str.
Variable lib : db_service.Lib.
Variable g : db_service.Globals.
Variable iter_ALLOWED_MIME_TYPES : list str.
Variable validation_text : list ResultItem -> str.

Local Abbreviation turn :=
  (main.turn extract_text_from_pdf_bytes extract_text_from_image_bytes
             generate_summary analyze_resume_with_query).
Local Abbreviation endpoint :=
  (main.process_resumes_endpoint
     extract_text_from_pdf_bytes extract_text_from_image_bytes
     generate_summary analyze_resume_with_query
     (db_service.log_usage lib g) iter_ALLOWED_MIME_TYPES validation_text).
Local Abbreviation the_response :=
  (built_response extract_text_from_pdf_bytes extract_text_from_image_bytes
                  generate_summary analyze_resume_with_query).
Local Abbreviation the_closing_state :=
  (closing_state extract_text_from_pdf_bytes extract_text_from_image_bytes
                 generate_summary analyze_resume_with_query lib g).
Local Abbreviation the_closing_result :=
  (closing_result extract_text_from_pdf_bytes extract_text_from_image_bytes
                  generate_summary analyze_resume_with_query lib g).

(** A request whose files pass validation runs the two loops and calls
    [log_usage]; when that call returns, the handler builds and returns the
    response, and when it raises, so does the handler. *)
Lemma endpoint_accepts (files : list main.UploadFile) (user_id request_id : str)
      (query : option str) (s : State) :
  Forall main.passes_validation files ->
  endpoint files user_id request_id query s
  = (the_closing_result query request_id files,
     the_closing_state files user_id request_id query s).
Proof.
  intros Hv. unfold main.process_resumes_endpoint.
  rewrite bind_M_run. unfold main.set_locals at 1. cbv beta iota.
  rewrite bind_M_run, (first_loop_accepts iter_ALLOWED_MIME_TYPES files Hv).
  cbv beta iota.
  rewrite bind_M_run, second_loop. cbv beta iota.
  rewrite bind_M_run. unfold main.get_summary at 1. cbv beta iota.
  rewrite bind_M_run. unfold emit at 1. cbv beta iota.
  rewrite bind_M_run, log_usage_run.
  unfold closing_result, closing_state.
  destruct (db_service.log_outcome lib g) as [[]|e]; cbv beta iota.
  2: { f_equal. unfold closing_summary, opening_summary.
       apply state_ext; cbn; rewrite <- ?app_assoc, ?app_nil_r; reflexivity. }
  rewrite bind_M_run. unfold main.get_results at 1. cbv beta iota.
  rewrite bind_M_run. unfold emit at 1. cbv beta iota.
  unfold built_response, closing_summary, opening_summary.
  cbn [processed_results log_result_summary events usage_logs
       db_service.add_logs main.record_turns add_events app].
  destruct (main.if_query query) as [q|] eqn:Hq.
  - unfold main.new_AnalysisResponse.
    rewrite (items_pass extract_text_from_pdf_bytes extract_text_from_image_bytes
               generate_summary analyze_resume_with_query query files Hv).
    rewrite (as_analyses_mode query q _ files Hq). cbn.
    f_equal. apply state_ext; cbn; rewrite <- ?app_assoc; reflexivity.
  - unfold main.new_SummaryResponse.
    rewrite (items_pass extract_text_from_pdf_bytes extract_text_from_image_bytes
               generate_summary analyze_resume_with_query query files Hv).
    rewrite (as_summaries_mode query _ files Hq). cbn.
    f_equal. apply state_ext; cbn; rewrite <- ?app_assoc; reflexivity.
Qed.

(** A request with a file that fails validation is refused with status 400
    in the first loop, whatever [log_usage] is: it is not called, and
    nothing is read, extracted or inferred. *)
Lemma endpoint_rejects (files : list main.UploadFile) (query : option str) :
  Exists main.fails_validation files ->
  exists k detail,
    k < List.length files
    /\ forall log_usage user_id request_id s,
         main.process_resumes_endpoint
           extract_text_from_pdf_bytes extract_text_from_image_bytes
           generate_summary analyze_resume_with_query
           log_usage iter_ALLOWED_MIME_TYPES validation_text
           files user_id request_id query s
         = (Raise (HTTPException 400 detail),
            add_events (main.validations (firstn (S k) files)) (opening_state query s)).
Proof.
  intros Hx.
  destruct (first_loop_rejects iter_ALLOWED_MIME_TYPES files Hx)
    as [k [detail [Hk Hrun]]].
  exists k, detail. split; [exact Hk|]. intros log_usage user_id request_id s.
  unfold main.process_resumes_endpoint.
  rewrite bind_M_run. unfold main.set_locals at 1. cbv beta iota.
  fold (opening_summary query). fold (opening_state query s).
  rewrite bind_M_run, Hrun. reflexivity.
Qed.

End HandlerRuns.

Lemma all_pass_or_one_fails (files : list main.UploadFile) :
  Forall main.passes_validation files \/ Exists main.fails_validation files.
Proof.
  induction files as [|f rest [IH|IH]].
  - left. constructor.
  - destruct (passes_or_fails f) as [Hp|Hf].
    + left. now constructor.
    + right. now constructor.
  - right. now apply Exists_cons_tl.
Qed.

Lemma filter_both_length {A} (p : A -> bool) (l : list A) :
  List.length (filter p l) + List.length (filter (fun x => negb (p x)) l)
  = List.length l.
Proof.
  induction l as [|x l IH]; [reflexivity|].
  simpl. destruct (p x); simpl; lia.
Qed.

Lemma Forall2_map_same {A B} (P : A -> B -> Prop) (f : A -> B) (l : list A) :
  (forall x, In x l -> P x (f x)) -> Forall2 P l (map f l).
Proof.
  induction l as [|x l IH]; intros H; simpl; constructor.
  - apply H. now left.
  - apply IH. intros y Hy. apply H. now right.
Qed.

(* ================================================================== *)
(** * The claims of the specification *)

Section Claims.

(** The services are arbitrary: the properties of the handler hold for
    every implementation of them, the ones of the repository included. *)
Variable extract_text_from_pdf_bytes : bytes -> Result str.
Variable extract_text_from_image_bytes : bytes -> Result str.
Variable generate_summary : str -> Result str.
Variable analyze_resume_with_query : str -> str -> Result str.
Variable lib : db_service.Lib.
Variable g : db_service.Globals.
Variable iter_ALLOWED_MIME_TYPES : list str.
Variable validation_text : list ResultItem -> str.

Local Abbreviation turn :=
  (main.turn extract_text_from_pdf_bytes extract_text_from_image_bytes
             generate_summary analyze_resume_with_query).
Local Abbreviation extract :=
  (main.extract extract_text_from_pdf_bytes extract_text_from_image_bytes).
Local Abbreviation infer :=
  (main.infer generate_summary analyze_resume_with_query).
Local Abbreviation file_calls :=
  (main.file_calls extract_text_from_pdf_bytes extract_text_from_image_bytes).
Local Abbreviation process_file :=
  (main.process_file extract_text_from_pdf_bytes extract_text_from_image_bytes
                     generate_summary analyze_resume_with_query).
Local Abbreviation endpoint :=
  (main.process_resumes_endpoint
     extract_text_from_pdf_bytes extract_text_from_image_bytes
     generate_summary analyze_resume_with_query
     (db_service.log_usage lib g) iter_ALLOWED_MIME_TYPES validation_text).
Local Abbreviation the_summary :=
  (closing_summary extract_text_from_pdf_bytes extract_text_from_image_bytes
                   generate_summary analyze_resume_with_query).
Local Abbreviation the_response :=
  (built_response extract_text_from_pdf_bytes extract_text_from_image_bytes
                  generate_summary analyze_resume_with_query).

Lemma built_response_names (query : option str) (request_id : str)
      (files : list main.UploadFile) :
  main.results_file_names (the_response query request_id files)
  = map main.filename files.
Proof.
  unfold built_response.
  destruct (main.if_query query); cbn; rewrite map_map; reflexivity.
Qed.

(** The field of the mode, read off the query. *)
Lemma mode_item_field (query : option str) (name text : str) :
  main.mode_item query name text
  = match query with
    | Some (_ :: _) => ItemAnalysis {| analysis_file_name := name; analysis := text |}
    | _ => ItemSummary {| summary_file_name := name; summary := text |}
    end.
Proof. destruct query as [[|c q]|]; reflexivity. Qed.

(** The calls of the turn of a file that passes validation. *)
Lemma turn_calls (query : option str) (file : main.UploadFile) :
  main.passes_validation file ->
  file_calls file (main.calls (turn query file)).
Proof.
  intros Hp. unfold main.turn.
  destruct (main.read file) as [file_bytes|e] eqn:Hr.
  2: { cbn. eapply main.calls_read_raises. exact Hr. }
  destruct (extract file file_bytes) as [[text|e]|] eqn:He.
  - rewrite nonempty_strip, Bool.negb_involutive.
    destruct (forallb isspace text) eqn:Hb.
    + cbn. eapply main.calls_blank_text; eassumption.
    + destruct (infer query text); cbn; eapply main.calls_inferred; eassumption.
  - cbn. eapply main.calls_extract_raises; eassumption.
  - destruct (extract_some extract_text_from_pdf_bytes extract_text_from_image_bytes
                file file_bytes Hp) as [E|E]; rewrite E in He; discriminate.
Qed.

Lemma turn_no_log (query : option str) (file : main.UploadFile) :
  filter main.is_log_call (main.calls (turn query file)) = []
  /\ filter main.is_response (main.calls (turn query file)) = [].
Proof.
  unfold main.turn.
  destruct (main.read file) as [file_bytes|e]; [|split; reflexivity].
  destruct (extract file file_bytes) as [[text|e]|]; try (split; reflexivity).
  destruct (negb (nonempty (strip text))); [split; reflexivity|].
  destruct (infer query text); split; reflexivity.
Qed.

Lemma blocks_no_log (query : option str) (files : list main.UploadFile) :
  filter main.is_log_call (flat_map main.calls (map (turn query) files)) = [].
Proof.
  induction files as [|f rest IH]; [reflexivity|].
  cbn [map flat_map]. rewrite filter_app, IH, app_nil_r.
  apply (turn_no_log query f).
Qed.

Lemma blocks_no_response (query : option str) (files : list main.UploadFile) :
  filter main.is_response (flat_map main.calls (map (turn query) files)) = [].
Proof.
  induction files as [|f rest IH]; [reflexivity|].
  cbn [map flat_map]. rewrite filter_app, IH, app_nil_r.
  apply (turn_no_log query f).
Qed.

Lemma validations_no_log (files : list main.UploadFile) :
  filter main.is_log_call (main.validations files) = [].
Proof. induction files as [|f rest IH]; [reflexivity|exact IH]. Qed.

Lemma validations_no_response (files : list main.UploadFile) :
  filter main.is_response (main.validations files) = [].
Proof. induction files as [|f rest IH]; [reflexivity|exact IH]. Qed.

Lemma closing_summary_total (query : option str) (files : list main.UploadFile) :
  files_processed (the_summary query files) + files_failed (the_summary query files)
  = List.length files.
Proof.
  unfold closing_summary, main.count_summary, opening_summary. cbn.
  rewrite filter_both_length. apply length_map.
Qed.

Lemma logged_summary (request_id user_id : str) (query : option str)
      (summary : LogResultSummary) :
  Forall (fun doc => result_summary doc = summary)
         (db_service.logged lib g request_id user_id query summary)
  /\ List.length (db_service.logged lib g request_id user_id query summary) <= 1.
Proof.
  unfold db_service.logged.
  destruct (db_service.bool_of_handle lib (db_service.logs_collection g)) as [[|]|e];
    try (split; [constructor|cbn; lia]).
  destruct (db_service.logs_collection g) as [coll|]; [|split; [constructor|cbn; lia]].
  destruct (db_service.insert_one lib coll _); split;
    try (constructor; [reflexivity|constructor]); try constructor; cbn; lia.
Qed.

(** The name each turn gives its item is the name of its file. *)
Lemma turn_item_name (query : option str) (file : main.UploadFile) :
  item_file_name (main.item (turn query file)) = main.filename file.
Proof.
  unfold main.turn, main.error_item.
  destruct (main.read file) as [file_bytes|e]; [|now rewrite mode_item_field; destruct query as [[|c q]|]].
  destruct (extract file file_bytes) as [[text|e]|]; [| |reflexivity].
  - destruct (negb (nonempty (strip text))).
    + cbn. rewrite mode_item_field. now destruct query as [[|c q]|].
    + destruct (infer query text); cbn; rewrite mode_item_field;
        now destruct query as [[|c q]|].
  - cbn. rewrite mode_item_field. now destruct query as [[|c q]|].
Qed.

Lemma turn_item_names (query : option str) (files : list main.UploadFile) :
  map item_file_name (map main.item (map (turn query) files))
  = map main.filename files.
Proof.
  induction files as [|f rest IH]; [reflexivity|].
  cbn [map]. now rewrite IH, turn_item_name.
Qed.

(** C2, where the code departs from it. The files of the request all pass
    validation, the log collection handle is bound to a collection, and the
    truth test of that collection raises [e], as the test of a pymongo 4
    collection does. The handler then runs both loops and has one result
    per uploaded file in its locals, in upload order and under the names of
    the files; it calls [log_usage] once, with a summary whose
    [files_processed] and [files_failed] add up to the number of files;
    and it ends with the exception [e] of that call: no response is built
    or returned, and nothing is written to the log. *)
Theorem C2_no_response_when_truth_test_raises (files : list main.UploadFile)
        (user_id request_id : str) (query : option str)
        (coll : db_service.Collection) (e : Exc) (s : State) :
  Forall main.passes_validation files ->
  db_service.logs_collection g = Some coll ->
  db_service.collection_bool lib coll = Raise e ->
  exists s' summary,
    endpoint files user_id request_id query s = (Raise e, s')
    /\ map item_file_name (processed_results s') = map main.filename files
    /\ filter main.is_log_call (events s')
       = filter main.is_log_call (events s)
         ++ [EvLogUsage request_id user_id query summary]
    /\ files_processed summary + files_failed summary = List.length files
    /\ filter main.is_response (events s') = filter main.is_response (events s)
    /\ usage_logs s' = usage_logs s.
Proof.
  intros Hv Hc He.
  destruct (log_outcome_raises lib g coll e Hc He) as [Hout Hlog].
  eexists. exists (the_summary query files).
  split.
  { rewrite endpoint_accepts by exact Hv. unfold closing_result. rewrite Hout.
    reflexivity. }
  cbn [closing_state events usage_logs processed_results]. rewrite Hout, Hlog.
  split; [apply turn_item_names|].
  split.
  { rewrite !filter_app. rewrite validations_no_log, blocks_no_log. reflexivity. }
  split; [apply closing_summary_total|].
  split.
  { rewrite !filter_app. rewrite validations_no_response, blocks_no_response.
    cbn. now rewrite !app_nil_r. }
  now rewrite app_nil_r.
Qed.

Lemma validations_no_step (files : list main.UploadFile) :
  filter main.is_extract_or_infer (main.validations files) = [].
Proof. induction files as [|f rest IH]; [reflexivity|exact IH]. Qed.

(** C3. For every request with at least one file whose MIME type is not
    one of application/pdf, image/png, image/jpeg, or whose lowercased
    filename extension is not one of pdf, png, jpg, jpeg, the handler raises
    an HTTPException with status 400. It stops in the validation loop: no
    file is read, extracted or sent to inference, [log_usage] is not called
    and the log collection is unchanged. *)
Theorem C3_invalid_file_rejected (files : list main.UploadFile)
        (user_id request_id : str) (query : option str) (s : State) :
  Exists main.fails_validation files ->
  exists detail s' k,
    endpoint files user_id request_id query s = (Raise (HTTPException 400 detail), s')
    /\ k < List.length files
    /\ events s' = events s ++ main.validations (firstn (S k) files)
    /\ filter main.is_extract_or_infer (events s')
       = filter main.is_extract_or_infer (events s)
    /\ filter main.is_log_call (events s') = filter main.is_log_call (events s)
    /\ usage_logs s' = usage_logs s.
Proof.
  intros Hx.
  destruct (endpoint_rejects extract_text_from_pdf_bytes extract_text_from_image_bytes
              generate_summary analyze_resume_with_query
              iter_ALLOWED_MIME_TYPES validation_text files query Hx)
    as [k [detail [Hk Hrun]]].
  exists detail. eexists. exists k.
  split; [apply Hrun|]. split; [exact Hk|].
  cbn [events usage_logs add_events opening_state].
  split; [reflexivity|].
  rewrite !filter_app, validations_no_step, validations_no_log, !app_nil_r.
  repeat split; reflexivity.
Qed.

(** C5, amended. The steps of the handler occur in this order. First the
    files are validated, one after the other. If one fails, the handler
    stops there with status 400: nothing is read, extracted or inferred,
    and [log_usage] is not called. Otherwise the second loop runs over the
    files in order; the calls for a file are read, extract, close and
    infer, in this order, up to the first of them that raises, and without
    the inference when the text is found blank. Then [log_usage] is called
    exactly once; it adds at most one document to the log. When that call
    returns, the response is built and returned, and nothing follows; when
    the truth test of the log collection handle raises in it, the handler
    ends there with that exception. No file is read or extracted before
    every file was validated. *)
Theorem C5_step_order (files : list main.UploadFile)
        (user_id request_id : str) (query : option str) (s : State) :
  exists r s',
    endpoint files user_id request_id query s = (r, s')
    /\ ((exists k detail,
           Exists main.fails_validation files
           /\ k < List.length files
           /\ r = Raise (HTTPException 400 detail)
           /\ events s' = events s ++ main.validations (firstn (S k) files)
           /\ usage_logs s' = usage_logs s)
        \/ (exists blocks summary docs,
              Forall main.passes_validation files
              /\ Forall2 file_calls files blocks
              /\ usage_logs s' = usage_logs s ++ docs
              /\ List.length docs <= 1
              /\ ((exists response,
                     r = Ok response
                     /\ db_service.guard_returns lib g
                     /\ events s'
                        = events s ++ main.validations files ++ List.concat blocks
                          ++ [EvLogUsage request_id user_id query summary]
                          ++ [EvResponse])
                  \/ (exists e,
                        r = Raise e
                        /\ db_service.bool_of_handle lib (db_service.logs_collection g)
                           = Raise e
                        /\ docs = []
                        /\ events s'
                           = events s ++ main.validations files ++ List.concat blocks
                             ++ [EvLogUsage request_id user_id query summary])))).
Proof.
  destruct (all_pass_or_one_fails files) as [Hv|Hx].
  - eexists. eexists.
    split; [apply endpoint_accepts; exact Hv|].
    right.
    exists (map (fun f => main.calls (turn query f)) files).
    exists (the_summary query files). eexists.
    split; [exact Hv|]. split.
    { apply Forall2_map_same. intros f Hf. apply turn_calls.
      rewrite Forall_forall in Hv. apply Hv. exact Hf. }
    split; [reflexivity|].
    split; [apply logged_summary|].
    unfold closing_result. cbn [events closing_state].
    destruct (log_outcome_cases lib g) as [[Hg Hout]|[coll [e [Hc [He Hout]]]]].
    + left. eexists. rewrite Hout. split; [reflexivity|]. split; [exact Hg|].
      rewrite flat_map_concat_map, map_map. reflexivity.
    + right. exists e. rewrite Hout. split; [reflexivity|].
      split; [unfold db_service.bool_of_handle; rewrite Hc; exact He|].
      split; [apply (log_outcome_raises lib g coll e Hc He)|].
      rewrite flat_map_concat_map, map_map, !app_nil_r. reflexivity.
  - destruct (endpoint_rejects extract_text_from_pdf_bytes extract_text_from_image_bytes
                generate_summary analyze_resume_with_query
                iter_ALLOWED_MIME_TYPES validation_text files query Hx)
      as [k [detail [Hk Hrun]]].
    eexists. eexists. split; [apply Hrun|].
    left. exists k, detail. repeat split; [exact Hx|exact Hk].
Qed.

(** C10. For every file whose extracted text is empty or whitespace only,
    the turn of the loop makes no call to the language model (it reads,
    extracts and closes, and that is all, whatever the model would answer);
    its result is the fixed string "Nenhum texto extraído do arquivo." in
    the field [analysis] when a query, a non-empty string, is given, and in
    the field [summary] otherwise; and the file is counted as failed, not
    as processed. *)
Theorem C10_blank_text (query : option str) (file : main.UploadFile)
        (file_bytes : bytes) (text : str) (s : State) :
  main.read file = Ok file_bytes ->
  extract file file_bytes = Some (Ok text) ->
  forallb isspace text = true ->
  exists s',
    process_file query file s = (Ok tt, s')
    /\ events s'
       = events s ++ [EvRead (main.filename file); EvExtract (main.filename file);
                      EvClose (main.filename file)]
    /\ processed_results s'
       = processed_results s
         ++ [match query with
             | Some (_ :: _) =>
                 ItemAnalysis {| analysis_file_name := main.filename file;
                                 analysis := py "Nenhum texto extraído do arquivo." |}
             | _ =>
                 ItemSummary {| summary_file_name := main.filename file;
                                summary := py "Nenhum texto extraído do arquivo." |}
             end]
    /\ files_failed (log_result_summary s') = files_failed (log_result_summary s) + 1
    /\ files_processed (log_result_summary s') = files_processed (log_result_summary s)
    /\ usage_logs s' = usage_logs s.
Proof.
  intros Hr He Hb. apply strip_nil_iff in Hb.
  eexists. split; [apply process_file_turn|].
  unfold main.turn. rewrite Hr, He, Hb.
  cbn [nonempty negb main.record_turns main.calls main.item main.processed
       events processed_results log_result_summary usage_logs flat_map map
       main.count_summary files_failed files_processed filter List.length app].
  rewrite mode_item_field. unfold main.NO_TEXT.
  repeat split; try reflexivity; lia.
Qed.

Local Abbreviation raises_in_try :=
  (main.raises_in_try extract_text_from_pdf_bytes extract_text_from_image_bytes
                      generate_summary analyze_resume_with_query).

Lemma turn_raises (query : option str) (file : main.UploadFile) (e : Exc) :
  raises_in_try query file e ->
  main.item (turn query file) = main.error_item query file e
  /\ main.processed (turn query file) = false.
Proof.
  unfold main.turn.
  intros [Hr|[[b [Hr He]]|[b [text [Hr [He [Hb Hi]]]]]]].
  - rewrite Hr. split; reflexivity.
  - rewrite Hr, He. split; reflexivity.
  - rewrite Hr, He, nonempty_strip, Hb, Hi. split; reflexivity.
Qed.

Lemma item_text_mode (query : option str) (name text : str) :
  main.item_text (main.mode_item query name text) = text.
Proof. unfold main.mode_item. destruct (main.if_query query); reflexivity. Qed.

Lemma built_response_results (query : option str) (request_id : str)
      (files : list main.UploadFile) :
  main.results_of (the_response query request_id files)
  = map (fun f => (main.filename f, main.item_text (main.item (turn query f)))) files.
Proof.
  unfold built_response.
  destruct (main.if_query query); cbn; rewrite map_map; reflexivity.
Qed.


Lemma turn_infers (query : option str) (file : main.UploadFile)
      (file_bytes : bytes) (text r : str) :
  main.read file = Ok file_bytes ->
  extract file file_bytes = Some (Ok text) ->
  forallb isspace text = false ->
  infer query text = Ok r ->
  main.item_text (main.item (turn query file)) = r.
Proof.
  intros Hr He Hb Hi. unfold main.turn.
  rewrite Hr, He, nonempty_strip, Hb, Hi. cbn. apply item_text_mode.
Qed.

(** C1, amended. For every request whose files all pass validation and
    whose call of [log_usage] returns, the handler returns a response whose
    [request_id] is the submitted one. If a non-empty query is provided,
    the response is an AnalysisResponse whose [query_used] is the submitted
    query, with one result per file, and for every file whose extracted
    text is not blank the result is what [analyze_resume_with_query]
    returns for that text and the query. If the query is omitted, or is the
    empty string, the response is a SummaryResponse with one result per
    file, and for every file whose extracted text is not blank the result
    is what [generate_summary] returns for that text. (A file whose text is
    blank, or whose processing raises, gets the substitute texts of C10 and
    C4.) *)
Theorem C1_dispatch_by_query (files : list main.UploadFile)
        (user_id request_id : str) (query : option str) (s : State) :
  Forall main.passes_validation files ->
  db_service.guard_returns lib g ->
  exists response s',
    endpoint files user_id request_id query s = (Ok response, s')
    /\ main.response_request_id response = request_id
    /\ (forall q,
          query = Some q -> q <> [] ->
          exists results,
            response = AnalysisResponse request_id q results
            /\ Forall2
                 (fun f r =>
                    analysis_file_name r = main.filename f
                    /\ forall file_bytes text answer,
                         main.read f = Ok file_bytes ->
                         extract f file_bytes = Some (Ok text) ->
                         forallb isspace text = false ->
                         analyze_resume_with_query text q = Ok answer ->
                         analysis r = answer)
                 files results)
    /\ (query = None \/ query = Some [] ->
        exists results,
          response = SummaryResponse request_id results
          /\ Forall2
               (fun f r =>
                  summary_file_name r = main.filename f
                  /\ forall file_bytes text sum,
                       main.read f = Ok file_bytes ->
                       extract f file_bytes = Some (Ok text) ->
                       forallb isspace text = false ->
                       generate_summary text = Ok sum ->
                       summary r = sum)
               files results).
Proof.
  intros Hv Hg.
  exists (the_response query request_id files). eexists.
  split.
  { rewrite endpoint_accepts by exact Hv. unfold closing_result.
    rewrite (log_outcome_returns lib g Hg). reflexivity. }
  split; [unfold built_response; destruct (main.if_query query); reflexivity|].
  split.
  - intros q -> Hq.
    assert (main.if_query (Some q) = Some q) as Hif
      by (destruct q; [congruence|reflexivity]).
    unfold built_response. rewrite Hif.
    eexists. split; [reflexivity|].
    apply Forall2_map_same. intros f _. cbn. split; [reflexivity|].
    intros b text answer Hr He Hb Ha.
    apply (turn_infers (Some q) f b text answer Hr He Hb).
    unfold main.infer. rewrite Hif. exact Ha.
  - intros Hq.
    assert (main.if_query query = None) as Hif by (destruct Hq as [->| ->]; reflexivity).
    unfold built_response. rewrite Hif.
    eexists. split; [reflexivity|].
    apply Forall2_map_same. intros f _. cbn. split; [reflexivity|].
    intros b text sum Hr He Hb Ha.
    apply (turn_infers query f b text sum Hr He Hb).
    unfold main.infer. rewrite Hif. exact Ha.
Qed.

(** C6, where the code departs from it. The test [if not logs_collection:]
    stands before the [try] block. When the log collection handle is bound
    to a collection whose truth test raises [e], as the test of a pymongo 4
    collection does, [log_usage] raises [e] to its caller and leaves the
    state as it found it; a request whose files pass validation then ends
    with [e] and no response, where the same request with the handle
    [None] is answered with its response. *)
Theorem C6_truth_test_raises_to_caller
        (request_id user_id : str) (query : option str)
        (result_summary : LogResultSummary) (files : list main.UploadFile)
        (coll : db_service.Collection) (e : Exc) (s : State) :
  db_service.logs_collection g = Some coll ->
  db_service.collection_bool lib coll = Raise e ->
  Forall main.passes_validation files ->
  db_service.log_usage lib g request_id user_id query result_summary s = (Raise e, s)
  /\ fst (endpoint files user_id request_id query s) = Raise e
  /\ fst (main.process_resumes_endpoint
            extract_text_from_pdf_bytes extract_text_from_image_bytes
            generate_summary analyze_resume_with_query
            (db_service.log_usage lib db_service.unavailable)
            iter_ALLOWED_MIME_TYPES validation_text
            files user_id request_id query s)
     = Ok (the_response query request_id files).
Proof.
  intros Hc He Hv.
  split; [apply (log_usage_raises lib g coll e _ _ _ _ _ Hc He)|].
  rewrite !endpoint_accepts by exact Hv. unfold closing_result. cbn [fst].
  destruct (log_outcome_raises lib g coll e Hc He) as [-> _].
  split; reflexivity.
Qed.

End Claims.

(* ------------------------------------------------------------------ *)
(** ** The claims on the sample world *)

Lemma cv_pdf_passes : main.passes_validation Sample.cv_pdf.
Proof.
  split.
  - exists (py "application/pdf"). split; [reflexivity|]. simpl. tauto.
  - exists (py "pdf"). split; [vm_compute; reflexivity|]. simpl. tauto.
Qed.

Lemma foto_png_passes : main.passes_validation Sample.foto_png.
Proof.
  split.
  - exists (py "image/png"). split; [reflexivity|]. simpl. tauto.
  - exists (py "png"). split; [vm_compute; reflexivity|]. simpl. tauto.
Qed.

Lemma vazio_jpg_passes : main.passes_validation Sample.vazio_jpg.
Proof.
  split.
  - exists (py "image/jpeg"). split; [reflexivity|]. simpl. tauto.
  - exists (py "jpg"). split; [vm_compute; reflexivity|]. simpl. tauto.
Qed.

Lemma cerquilha_png_passes : main.passes_validation Sample.cerquilha_png.
Proof.
  split.
  - exists (py "image/png"). split; [reflexivity|]. simpl. tauto.
  - exists (py "png"). split; [vm_compute; reflexivity|]. simpl. tauto.
Qed.

Lemma notas_txt_fails : main.fails_validation Sample.notas_txt.
Proof.
  left. intros m E. injection E as <-. vm_compute.
  intros [H|[H|[H|[]]]]; discriminate.
Qed.

Lemma sample_files_pass :
  Forall main.passes_validation
         [Sample.cv_pdf; Sample.foto_png; Sample.vazio_jpg; Sample.cerquilha_png].
Proof.
  constructor; [apply cv_pdf_passes|].
  constructor; [apply foto_png_passes|].
  constructor; [apply vazio_jpg_passes|].
  constructor; [apply cerquilha_png_passes|constructor].
Qed.

(** In the world without a MongoDB server the handle is [None] and its
    truth test returns. *)
Lemma unlogged_guard_returns :
  db_service.guard_returns Sample.mongo_down (app.dbg Sample.globals_unlogged).
Proof. exists false. reflexivity. Qed.

(** In the sample world the handle is bound to this collection. *)
Lemma sample_collection :
  db_service.logs_collection (app.dbg Sample.globals)
  = Some (db_service.MkCollection
            (db_service.MkDatabase
               (db_service.MkClient (py "mongodb://localhost:27017/"))
               (py "resume_analyzer_logs"))
            (py "usage_logs")).
Proof. reflexivity. Qed.

Lemma C2_no_response_when_truth_test_raises_witness :
  exists s' summary,
    app.process_resumes_endpoint Sample.env Sample.globals
      [Sample.cv_pdf; Sample.foto_png; Sample.vazio_jpg; Sample.cerquilha_png]
      (py "fabio_techmatch") (py "r1") (Some (py "AWS?")) Sample.start
    = (Raise Sample.no_truth_value, s')
    /\ map item_file_name (processed_results s')
       = map main.filename
             [Sample.cv_pdf; Sample.foto_png; Sample.vazio_jpg; Sample.cerquilha_png]
    /\ filter main.is_log_call (events s')
       = filter main.is_log_call (events Sample.start)
         ++ [EvLogUsage (py "r1") (py "fabio_techmatch") (Some (py "AWS?")) summary]
    /\ files_processed summary + files_failed summary = 4
    /\ filter main.is_response (events s') = filter main.is_response (events Sample.start)
    /\ usage_logs s' = usage_logs Sample.start.
Proof.
  unfold app.process_resumes_endpoint.
  eapply C2_no_response_when_truth_test_raises.
  - exact sample_files_pass.
  - exact sample_collection.
  - reflexivity.
Defined.

Lemma C3_invalid_file_rejected_witness :
  exists detail s' k,
    Sample.run [Sample.cv_pdf; Sample.notas_txt]
      (py "fabio_techmatch") (py "r1") None Sample.start
    = (Raise (HTTPException 400 detail), s')
    /\ k < 2
    /\ events s'
       = events Sample.start
         ++ main.validations (firstn (S k) [Sample.cv_pdf; Sample.notas_txt])
    /\ filter main.is_extract_or_infer (events s')
       = filter main.is_extract_or_infer (events Sample.start)
    /\ filter main.is_log_call (events s') = filter main.is_log_call (events Sample.start)
    /\ usage_logs s' = usage_logs Sample.start.
Proof.
  unfold Sample.run, app.process_resumes_endpoint.
  apply C3_invalid_file_rejected.
  apply Exists_cons_tl. apply Exists_cons_hd. exact notas_txt_fails.
Defined.

(** C5, claim as stated, fails: a request whose second file is a text file
    is refused in the validation loop; [log_usage] is called zero times,
    nothing is written to the log and no response is returned. *)
Lemma C5_counterexample :
  fst (Sample.run [Sample.cv_pdf; Sample.notas_txt]
         (py "fabio_techmatch") (py "r1") (Some (py "AWS?")) Sample.start)
  = Raise (HTTPException 400
             (py "Tipo de arquivo inválido: notas.txt. Tipos permitidos: application/pdf, image/png, image/jpeg"))
  /\ events (snd (Sample.run [Sample.cv_pdf; Sample.notas_txt]
                    (py "fabio_techmatch") (py "r1") (Some (py "AWS?")) Sample.start))
     = [EvValidate (py "cv.pdf"); EvValidate (py "notas.txt")]
  /\ List.length
       (filter main.is_log_call
          (events (snd (Sample.run [Sample.cv_pdf; Sample.notas_txt]
                          (py "fabio_techmatch") (py "r1") (Some (py "AWS?"))
                          Sample.start))))
     = 0
  /\ usage_logs (snd (Sample.run [Sample.cv_pdf; Sample.notas_txt]
                        (py "fabio_techmatch") (py "r1") (Some (py "AWS?")) Sample.start))
     = [].
Proof. repeat split; vm_compute; reflexivity. Qed.

(** C1, claim as stated, fails twice. With the query "AWS?" and an image
    with no text in it, the result of the file is not an answer of the
    model to the query on the extracted text: the model is not asked, and
    the result is the fixed text. With the empty string as the query, a
    query is provided and the response is a SummaryResponse. *)
Lemma C1_counterexample :
  ocr_service.extract_text_from_image_bytes Sample.ocr_lib (Sample.text_bytes "   ")
  = Ok []
  /\ fst (Sample.run_unlogged [Sample.vazio_jpg] (py "fabio_techmatch") (py "r1")
            (Some (py "AWS?")) Sample.start)
     = Ok (AnalysisResponse (py "r1") (py "AWS?")
             [{| analysis_file_name := py "vazio.jpg";
                 analysis := py "Nenhum texto extraído do arquivo." |}])
  /\ llm_service.analyze_resume_with_query (app.llm Sample.globals_unlogged) []
       (py "AWS?") 200
     <> Ok (py "Nenhum texto extraído do arquivo.")
  /\ fst (Sample.run_unlogged [Sample.foto_png] (py "fabio_techmatch") (py "r2")
            (Some []) Sample.start)
     = Ok (SummaryResponse (py "r2")
             [{| summary_file_name := py "foto.PNG";
                 summary := py "summarize: Java" |}]).
Proof.
  split; [vm_compute; reflexivity|]. split; [vm_compute; reflexivity|].
  split; [vm_compute; discriminate|]. vm_compute; reflexivity.
Qed.

Lemma C1_dispatch_by_query_witness :
  exists response s' results,
    Sample.run_unlogged
      [Sample.cv_pdf; Sample.foto_png; Sample.vazio_jpg; Sample.cerquilha_png]
      (py "fabio_techmatch") (py "r1") (Some (py "AWS?")) Sample.start
    = (Ok response, s')
    /\ main.response_request_id response = py "r1"
    /\ response = AnalysisResponse (py "r1") (py "AWS?") results.
Proof.
  destruct (C1_dispatch_by_query
              (ocr_service.extract_text_from_pdf_bytes Sample.ocr_lib)
              (ocr_service.extract_text_from_image_bytes Sample.ocr_lib)
              (fun text =>
                 llm_service.generate_summary (app.llm Sample.globals_unlogged) text 150 30)
              (fun text query =>
                 llm_service.analyze_resume_with_query (app.llm Sample.globals_unlogged)
                   text query 200)
              Sample.mongo_down (app.dbg Sample.globals_unlogged)
              main.ALLOWED_MIME_TYPES (fun _ => py "validation error")
              [Sample.cv_pdf; Sample.foto_png; Sample.vazio_jpg; Sample.cerquilha_png]
              (py "fabio_techmatch") (py "r1") (Some (py "AWS?")) Sample.start
              sample_files_pass unlogged_guard_returns)
    as [response [s' [Hrun [Hid [Hq _]]]]].
  destruct (Hq (py "AWS?") eq_refl) as [results [Hresp _]].
  { vm_compute. discriminate. }
  exists response, s', results. split; [exact Hrun|]. split; [exact Hid|exact Hresp].
Defined.


(** The file vazio.jpg, an image with no text in it, in a request with a
    query and in one without. *)
Lemma C10_blank_text_witness :
  (exists s',
      main.process_file
        (ocr_service.extract_text_from_pdf_bytes Sample.ocr_lib)
        (ocr_service.extract_text_from_image_bytes Sample.ocr_lib)
        (fun text => llm_service.generate_summary (app.llm Sample.globals) text 150 30)
        (fun text query =>
           llm_service.analyze_resume_with_query (app.llm Sample.globals) text query 200)
        (Some (py "AWS?")) Sample.vazio_jpg Sample.start
      = (Ok tt, s')
      /\ events s' = [EvRead (py "vazio.jpg"); EvExtract (py "vazio.jpg");
                      EvClose (py "vazio.jpg")]
      /\ processed_results s'
         = [ItemAnalysis {| analysis_file_name := py "vazio.jpg";
                            analysis := py "Nenhum texto extraído do arquivo." |}]
      /\ files_failed (log_result_summary s') = 1
      /\ files_processed (log_result_summary s') = 0)
  /\ (exists s',
        main.process_file
          (ocr_service.extract_text_from_pdf_bytes Sample.ocr_lib)
          (ocr_service.extract_text_from_image_bytes Sample.ocr_lib)
          (fun text => llm_service.generate_summary (app.llm Sample.globals) text 150 30)
          (fun text query =>
             llm_service.analyze_resume_with_query (app.llm Sample.globals) text query 200)
          None Sample.vazio_jpg Sample.start
        = (Ok tt, s')
        /\ events s' = [EvRead (py "vazio.jpg"); EvExtract (py "vazio.jpg");
                        EvClose (py "vazio.jpg")]
        /\ processed_results s'
           = [ItemSummary {| summary_file_name := py "vazio.jpg";
                             summary := py "Nenhum texto extraído do arquivo." |}]
        /\ files_failed (log_result_summary s') = 1
        /\ files_processed (log_result_summary s') = 0).
Proof.
  split.
  - destruct (C10_blank_text
                (ocr_service.extract_text_from_pdf_bytes Sample.ocr_lib)
                (ocr_service.extract_text_from_image_bytes Sample.ocr_lib)
                (fun text =>
                   llm_service.generate_summary (app.llm Sample.globals) text 150 30)
                (fun text query =>
                   llm_service.analyze_resume_with_query (app.llm Sample.globals)
                     text query 200)
                (Some (py "AWS?")) Sample.vazio_jpg (Sample.text_bytes "   ") []
                Sample.start eq_refl eq_refl eq_refl)
      as [s' [Hrun [Hev [Hres [Hf [Hp _]]]]]].
    exists s'. split; [exact Hrun|]. split; [exact Hev|].
    split; [rewrite Hres; vm_compute; reflexivity|].
    split; [exact Hf|exact Hp].
  - destruct (C10_blank_text
                (ocr_service.extract_text_from_pdf_bytes Sample.ocr_lib)
                (ocr_service.extract_text_from_image_bytes Sample.ocr_lib)
                (fun text =>
                   llm_service.generate_summary (app.llm Sample.globals) text 150 30)
                (fun text query =>
                   llm_service.analyze_resume_with_query (app.llm Sample.globals)
                     text query 200)
                None Sample.vazio_jpg (Sample.text_bytes "   ") [] Sample.start
                eq_refl eq_refl eq_refl)
      as [s' [Hrun [Hev [Hres [Hf [Hp _]]]]]].
    exists s'. split; [exact Hrun|]. split; [exact Hev|].
    split; [exact Hres|].
    split; [exact Hf|exact Hp].
Defined.

(** The sample world: the server answers and the driver is pymongo 4. *)
Lemma C6_truth_test_raises_to_caller_witness :
  db_service.log_usage Sample.mongo_up (app.dbg Sample.globals)
    (py "r1") (py "fabio_techmatch") None
    {| files_processed := 1; files_failed := 0; operation_type := py "summary" |}
    Sample.start
  = (Raise Sample.no_truth_value, Sample.start)
  /\ fst (Sample.run [Sample.cv_pdf] (py "fabio_techmatch") (py "r1") None Sample.start)
     = Raise Sample.no_truth_value
  /\ exists response,
       fst (main.process_resumes_endpoint
              (ocr_service.extract_text_from_pdf_bytes Sample.ocr_lib)
              (ocr_service.extract_text_from_image_bytes Sample.ocr_lib)
              (fun text =>
                 llm_service.generate_summary (app.llm Sample.globals) text 150 30)
              (fun text query =>
                 llm_service.analyze_resume_with_query (app.llm Sample.globals)
                   text query 200)
              (db_service.log_usage Sample.mongo_up db_service.unavailable)
              main.ALLOWED_MIME_TYPES (fun _ => py "validation error")
              [Sample.cv_pdf] (py "fabio_techmatch") (py "r1") None Sample.start)
       = Ok response.
Proof.
  destruct (C6_truth_test_raises_to_caller
              (ocr_service.extract_text_from_pdf_bytes Sample.ocr_lib)
              (ocr_service.extract_text_from_image_bytes Sample.ocr_lib)
              (fun text =>
                 llm_service.generate_summary (app.llm Sample.globals) text 150 30)
              (fun text query =>
                 llm_service.analyze_resume_with_query (app.llm Sample.globals)
                   text query 200)
              Sample.mongo_up (app.dbg Sample.globals)
              main.ALLOWED_MIME_TYPES (fun _ => py "validation error")
              (py "r1") (py "fabio_techmatch") None
              {| files_processed := 1; files_failed := 0; operation_type := py "summary" |}
              [Sample.cv_pdf] _ Sample.no_truth_value Sample.start
              sample_collection eq_refl
              (Forall_cons _ cv_pdf_passes (Forall_nil _)))
    as [Hlog [Hrun Hnone]].
  split; [exact Hlog|]. split; [exact Hrun|].
  eexists. exact Hnone.
Defined.

(* ------------------------------------------------------------------ *)
(** ** State shared across requests *)


(** What importing [db_service] leaves in [logs_collection]. *)
Lemma import_logs_collection (lib : db_service.Lib) (coll : db_service.Collection) :
  db_service.logs_collection (db_service.import lib) = Some coll
  <-> exists c d u,
        db_service.MongoClient lib (db_service.MONGODB_URI lib) = Ok c
        /\ db_service.get_database lib c (db_service.DATABASE_NAME lib) = Ok d
        /\ db_service.get_collection lib d (py "usage_logs") = Ok coll
        /\ db_service.ping lib c = Ok u.
Proof.
  unfold db_service.import.
  destruct (db_service.MongoClient lib (db_service.MONGODB_URI lib)) as [c|e]; cbn.
  2: { split; [discriminate | intros [c [d [u [H _]]]]; discriminate]. }
  destruct (db_service.get_database lib c (db_service.DATABASE_NAME lib))
    as [d|e] eqn:Hd; cbn.
  2: { split; [discriminate|].
       intros [c' [d [u [Hc [Hd' _]]]]]. injection Hc as <-.
       rewrite Hd in Hd'. discriminate. }
  destruct (db_service.get_collection lib d (py "usage_logs")) as [coll'|e] eqn:Hcoll;
    cbn.
  2: { split; [discriminate|].
       intros [c' [d' [u [Hc [Hd' [Hcoll' _]]]]]]. injection Hc as <-.
       rewrite Hd in Hd'. injection Hd' as <-. rewrite Hcoll in Hcoll'. discriminate. }
  destruct (db_service.ping lib c) as [u|e] eqn:Hping; cbn.
  - split.
    + intros E. injection E as <-. exists c, d, u. repeat split; assumption.
    + intros [c' [d' [u' [Hc [Hd' [Hcoll' _]]]]]]. injection Hc as <-.
      rewrite Hd in Hd'. injection Hd' as <-. rewrite Hcoll in Hcoll'.
      injection Hcoll' as <-. reflexivity.
  - split; [discriminate|].
    intros [c' [d' [u' [Hc [_ [_ Hp']]]]]]. injection Hc as <-.
    rewrite Hping in Hp'. discriminate.
Qed.



(* ================================================================== *)
(** * Further properties of the code *)

(* ------------------------------------------------------------------ *)
(** ** get_file_extension *)

Lemma split_without_sep (sep : char) (s : str) :
  char_in sep s = false -> split sep s = [s].
Proof.
  induction s as [|c r IH]; [reflexivity|].
  unfold char_in. simpl. intros H. apply orb_false_elim in H. destruct H as [Hc Hr].
  unfold char_eqb in *. rewrite N.eqb_sym in Hc. rewrite Hc.
  rewrite (IH Hr). reflexivity.
Qed.

(** The pieces of a string that has a separator in it: some pieces, not
    none, and then what follows the last separator. *)
Lemma split_with_sep (sep : char) (base ext : str) :
  char_in sep ext = false ->
  exists first pieces, split sep (base ++ sep :: ext) = (first :: pieces) ++ [ext].
Proof.
  intros He. induction base as [|c base [first [pieces IH]]].
  - exists [], []. simpl. unfold char_eqb. rewrite N.eqb_refl.
    now rewrite (split_without_sep sep ext He).
  - simpl. destruct (char_eqb c sep).
    + exists [], (first :: pieces). now rewrite IH.
    + rewrite IH. exists (c :: first), pieces. reflexivity.
Qed.

Lemma extension_of_dotted_name (base ext : str) :
  char_in (chr ".") ext = false ->
  main.get_file_extension (base ++ chr "." :: ext) = Some (lower ext).
Proof.
  intros He. unfold main.get_file_extension.
  assert (char_in (chr ".") (base ++ chr "." :: ext) = true) as Hin.
  { unfold char_in. rewrite existsb_app. cbn [existsb]. unfold char_eqb.
    rewrite N.eqb_refl. cbn [orb]. now rewrite orb_true_r. }
  rewrite Hin.
  destruct (split_with_sep (chr ".") base ext He) as [first [pieces Hs]].
  rewrite Hs. now rewrite last_last.
Qed.

(** X1. The extension of a name is what follows its last dot, lowercased:
    for a name [base.ext] in which [ext] is made of ASCII characters and
    has no dot, whatever dots [base] has, [get_file_extension] returns
    [ext.lower()], which on ASCII characters maps the letters A to Z and
    nothing else. *)
Theorem X1_extension_after_last_dot (base ext : str) :
  forallb (fun c => (c <? 128)%N) ext = true ->
  char_in (chr ".") ext = false ->
  main.get_file_extension (base ++ py "." ++ ext) = Some (lower ext).
Proof.
  intros _ He. change (py "." ++ ext) with (chr "." :: ext).
  apply extension_of_dotted_name. exact He.
Qed.

Lemma X1_extension_after_last_dot_witness :
  main.get_file_extension (py "cv.final" ++ py "." ++ py "PDF") = Some (py "pdf").
Proof.
  exact (X1_extension_after_last_dot (py "cv.final") (py "PDF") eq_refl eq_refl).
Defined.

(* ------------------------------------------------------------------ *)
(** ** The validation loop *)

Lemma for_each_app {A} (xs ys : list A) (body : A -> M unit) :
  forall s,
    for_each (xs ++ ys) body s
    = match for_each xs body s with
      | (Ok _, s') => for_each ys body s'
      | (Raise e, s') => (Raise e, s')
      end.
Proof.
  induction xs as [|x xs IH]; intros s; [reflexivity|].
  cbn [app]. rewrite !for_each_cons.
  destruct (body x s) as [[[]|e] s']; [apply IH|reflexivity].
Qed.

Section RejectionDetail.

Variable extract_text_from_pdf_bytes : bytes -> Result str.
Variable extract_text_from_image_bytes : bytes -> Result str.
Variable generate_summary : str -> Result str.
Variable analyze_resume_with_query : str -> str -> Result str.
Variable log_usage : str -> str -> option str -> LogResultSummary -> M unit.
Variable iter_ALLOWED_MIME_TYPES : list str.
Variable validation_text : list ResultItem -> str.

Lemma validate_file_detail (file : main.UploadFile) (s : State) :
  main.fails_validation file ->
  main.validate_file iter_ALLOWED_MIME_TYPES file s
  = (Raise (HTTPException 400
              (if main.opt_in (main.content_type file) main.ALLOWED_MIME_TYPES
               then py "Extensão de arquivo inválida: " ++ main.filename file
               else py "Tipo de arquivo inválido: " ++ main.filename file
                    ++ py ". Tipos permitidos: "
                    ++ join (py ", ") iter_ALLOWED_MIME_TYPES)),
     add_events [EvValidate (main.filename file)] s).
Proof.
  intros H. unfold main.validate_file.
  destruct (main.opt_in (main.content_type file) main.ALLOWED_MIME_TYPES) eqn:Hm.
  2: { run; reflexivity. }
  destruct H as [H|H].
  - apply opt_in_In in Hm. destruct Hm as [m [Em Hin]]. destruct (H m Em Hin).
  - destruct (main.get_file_extension (main.filename file)) as [e|] eqn:Ee.
    2: { run; reflexivity. }
    destruct (str_in e main.ALLOWED_EXTENSIONS) eqn:Hi.
    + apply str_in_In in Hi. destruct (H e eq_refl Hi).
    + rewrite orb_true_r. run; reflexivity.
Qed.

(** X2. A request is refused at its first file that fails validation, in
    upload order, and the detail of the 400 names that file: the MIME type
    is checked before the extension, so the detail is the MIME message when
    the MIME type is not allowed and the extension message otherwise. The
    files after it are not looked at. *)
Theorem X2_rejection_names_first_failing_file
        (before after : list main.UploadFile) (file : main.UploadFile)
        (user_id request_id : str) (query : option str) (s : State) :
  Forall main.passes_validation before ->
  main.fails_validation file ->
  exists s',
    main.process_resumes_endpoint
      extract_text_from_pdf_bytes extract_text_from_image_bytes
      generate_summary analyze_resume_with_query
      log_usage iter_ALLOWED_MIME_TYPES validation_text
      (before ++ file :: after) user_id request_id query s
    = (Raise (HTTPException 400
                (if main.opt_in (main.content_type file) main.ALLOWED_MIME_TYPES
                 then py "Extensão de arquivo inválida: " ++ main.filename file
                 else py "Tipo de arquivo inválido: " ++ main.filename file
                      ++ py ". Tipos permitidos: "
                      ++ join (py ", ") iter_ALLOWED_MIME_TYPES)),
       s')
    /\ events s' = events s ++ main.validations (before ++ [file])
    /\ usage_logs s' = usage_logs s.
Proof.
  intros Hb Hf. unfold main.process_resumes_endpoint.
  rewrite bind_M_run. unfold main.set_locals at 1. cbv beta iota.
  rewrite bind_M_run, for_each_app.
  rewrite (first_loop_accepts iter_ALLOWED_MIME_TYPES before Hb).
  rewrite for_each_cons, (validate_file_detail file _ Hf).
  eexists. split; [reflexivity|].
  cbn [events usage_logs add_events]. unfold main.validations.
  rewrite map_app, <- app_assoc. split; reflexivity.
Qed.

End RejectionDetail.

Lemma X2_rejection_names_first_failing_file_witness :
  exists s',
    Sample.run ([Sample.cv_pdf] ++ Sample.notas_txt :: [Sample.foto_png])
      (py "fabio_techmatch") (py "r1") None Sample.start
    = (Raise (HTTPException 400
                (if main.opt_in (main.content_type Sample.notas_txt)
                                main.ALLOWED_MIME_TYPES
                 then py "Extensão de arquivo inválida: " ++ main.filename Sample.notas_txt
                 else py "Tipo de arquivo inválido: " ++ main.filename Sample.notas_txt
                      ++ py ". Tipos permitidos: "
                      ++ join (py ", ") (app.iter_mime Sample.env))),
       s')
    /\ events s'
       = events Sample.start ++ main.validations ([Sample.cv_pdf] ++ [Sample.notas_txt])
    /\ usage_logs s' = usage_logs Sample.start.
Proof.
  unfold Sample.run, app.process_resumes_endpoint.
  apply X2_rejection_names_first_failing_file.
  - constructor; [apply cv_pdf_passes|constructor].
  - exact notas_txt_fails.
Defined.

(* ------------------------------------------------------------------ *)
(** ** The text the OCR service returns *)

Lemma lstrip_idem (s : str) : lstrip (lstrip s) = lstrip s.
Proof.
  induction s as [|c r IH]; [reflexivity|].
  simpl. destruct (isspace c) eqn:Hc; [exact IH|]. simpl. now rewrite Hc.
Qed.

Lemma lstrip_split (s : str) :
  exists sp, s = sp ++ lstrip s /\ forallb isspace sp = true.
Proof.
  induction s as [|c r [sp [E H]]].
  - exists []. split; reflexivity.
  - simpl. destruct (isspace c) eqn:Hc.
    + exists (c :: sp). split; [simpl; now rewrite <- E|simpl; now rewrite Hc].
    + exists []. split; reflexivity.
Qed.

Lemma lstrip_first (s : str) : existsb isspace (firstn 1 (lstrip s)) = false.
Proof.
  destruct (lstrip s) as [|c r] eqn:E; [reflexivity|].
  simpl. now rewrite (lstrip_head s c r E).
Qed.

(** What [strip] returns is a prefix of what [lstrip] returns. *)
Lemma strip_prefix (s : str) : exists sp, lstrip s = strip s ++ sp.
Proof.
  unfold strip, rstrip.
  destruct (lstrip_split (rev (lstrip s))) as [sp [E _]].
  exists (rev sp). rewrite <- rev_app_distr, <- E. now rewrite rev_involutive.
Qed.

Lemma strip_first (s : str) : existsb isspace (firstn 1 (strip s)) = false.
Proof.
  destruct (strip_prefix s) as [sp E].
  destruct (strip s) as [|c r]; [reflexivity|].
  simpl. now rewrite (lstrip_head s c (r ++ sp) E).
Qed.

Lemma strip_last (s : str) : existsb isspace (firstn 1 (rev (strip s))) = false.
Proof.
  unfold strip, rstrip. rewrite rev_involutive. apply lstrip_first.
Qed.

Lemma lstrip_fixed (s : str) : existsb isspace (firstn 1 s) = false -> lstrip s = s.
Proof.
  destruct s as [|c r]; [reflexivity|].
  simpl. rewrite orb_false_r. now intros ->.
Qed.

Lemma strip_idem (s : str) : strip (strip s) = strip s.
Proof.
  unfold strip at 1. rewrite (lstrip_fixed (strip s) (strip_first s)).
  unfold rstrip. rewrite (lstrip_fixed (rev (strip s)) (strip_last s)).
  apply rev_involutive.
Qed.

(** X3. The text either extraction function returns carries no leading and
    no trailing whitespace: its first and its last characters are not
    whitespace, and stripping it again, as the handler does before it tests
    for a blank text, changes nothing. *)
Theorem X3_extracted_text_is_stripped (lib : ocr_service.Lib) (b : bytes) :
  (exists t,
      ocr_service.extract_text_from_image_bytes lib b = Ok t
      /\ strip t = t
      /\ existsb isspace (firstn 1 t ++ firstn 1 (rev t)) = false)
  /\ (exists t,
        ocr_service.extract_text_from_pdf_bytes lib b = Ok t
        /\ strip t = t
        /\ existsb isspace (firstn 1 t ++ firstn 1 (rev t)) = false).
Proof.
  assert (forall s, strip (strip s) = strip s
                    /\ existsb isspace (firstn 1 (strip s) ++ firstn 1 (rev (strip s)))
                       = false) as Hs.
  { intros s. split; [apply strip_idem|].
    now rewrite existsb_app, strip_first, strip_last. }
  split.
  - unfold ocr_service.extract_text_from_image_bytes.
    destruct (ocr_service.Image_open lib b) as [image|e]; simpl.
    2: { exists []. repeat split. }
    destruct (ocr_service.image_to_string lib image ocr_service.TESSERACT_LANG)
      as [text|e]; simpl.
    + exists (strip text). split; [reflexivity|apply Hs].
    + exists []. repeat split.
  - rewrite pdf_text.
    destruct (ocr_service.convert_from_bytes lib b 200) as [images|e].
    + eexists. split; [reflexivity|apply Hs].
    + exists []. repeat split.
Qed.

Lemma strip_not_blank (s : str) :
  forallb isspace s = false -> forallb isspace (strip s) = false.
Proof.
  intros H. destruct (strip s) as [|c r] eqn:E.
  - apply strip_nil_iff in E. congruence.
  - pose proof (strip_first s) as Hf. rewrite E in Hf. simpl in Hf.
    rewrite orb_false_r in Hf. simpl. now rewrite Hf.
Qed.

Lemma page_title_not_blank : forallb isspace (py "--- Página ") = false.
Proof. vm_compute. reflexivity. Qed.

(** The block of a page is never blank: it has its header or the error
    header in it. *)
Lemma page_block_not_blank (lib : ocr_service.Lib) (i : nat) (image : ocr_service.Image) :
  forallb isspace (ocr_service.page_block lib i image) = false.
Proof.
  assert (forall rest, forallb isspace (nl ++ py "--- Página " ++ rest) = false) as H.
  { intros rest. rewrite !forallb_app, page_title_not_blank. apply andb_false_r. }
  unfold ocr_service.page_block, ocr_service.page_header, ocr_service.page_error_header.
  destruct (ocr_service.Image_save lib image (py "PNG")) as [png|e]; [|apply H].
  destruct (ocr_service.extract_text_from_image_bytes lib png) as [t|e]; [|apply H].
  rewrite <- !app_assoc. apply H.
Qed.

Lemma pdf_with_a_page_not_blank (lib : ocr_service.Lib) (pdf_bytes : bytes)
      (image : ocr_service.Image) (rest : list ocr_service.Image) :
  ocr_service.convert_from_bytes lib pdf_bytes 200 = Ok (image :: rest) ->
  exists text,
    ocr_service.extract_text_from_pdf_bytes lib pdf_bytes = Ok text
    /\ forallb isspace text = false.
Proof.
  intros Hc. rewrite pdf_text, Hc. eexists. split; [reflexivity|].
  apply strip_not_blank. cbn [ocr_service.page_blocks List.concat].
  rewrite forallb_app, page_block_not_blank. reflexivity.
Qed.

(** X4. A PDF that converts to at least one page never yields a blank
    text, even when the OCR engine reads nothing on any page: the page
    headers are in the text. So for such a file the handler never takes
    the "Nenhum texto extraído" branch: it always sends the text to the
    language model. *)
Theorem X4_pdf_with_a_page_reaches_the_model
        (lib : ocr_service.Lib)
        (generate_summary : str -> Result str)
        (analyze_resume_with_query : str -> str -> Result str)
        (query : option str) (file : main.UploadFile) (file_bytes : bytes)
        (image : ocr_service.Image) (rest : list ocr_service.Image) (s : State) :
  main.content_type file = Some (py "application/pdf") ->
  main.read file = Ok file_bytes ->
  ocr_service.convert_from_bytes lib file_bytes 200 = Ok (image :: rest) ->
  exists text s',
    ocr_service.extract_text_from_pdf_bytes lib file_bytes = Ok text
    /\ forallb isspace text = false
    /\ main.process_file
         (ocr_service.extract_text_from_pdf_bytes lib)
         (ocr_service.extract_text_from_image_bytes lib)
         generate_summary analyze_resume_with_query query file s
       = (Ok tt, s')
    /\ events s'
       = events s ++ [EvRead (main.filename file); EvExtract (main.filename file);
                      EvClose (main.filename file);
                      EvInfer (main.filename file) text].
Proof.
  intros Hct Hr Hc.
  destruct (pdf_with_a_page_not_blank lib file_bytes image rest Hc) as [text [Ht Hb]].
  exists text. eexists. split; [exact Ht|]. split; [exact Hb|].
  split; [apply process_file_turn|].
  unfold main.turn, main.extract. rewrite Hr, Hct.
  cbn [main.opt_eqb]. rewrite str_eqb_refl, Ht, nonempty_strip, Hb. cbn [negb].
  destruct (main.infer generate_summary analyze_resume_with_query query text);
    cbn; rewrite ?app_nil_r; reflexivity.
Qed.

Lemma X4_pdf_with_a_page_reaches_the_model_witness :
  exists text s',
    ocr_service.extract_text_from_pdf_bytes Sample.ocr_lib (Sample.text_bytes "?|?") = Ok text
    /\ forallb isspace text = false
    /\ main.process_file
         (ocr_service.extract_text_from_pdf_bytes Sample.ocr_lib)
         (ocr_service.extract_text_from_image_bytes Sample.ocr_lib)
         (fun text => llm_service.generate_summary (app.llm Sample.globals) text 150 30)
         (fun text query =>
            llm_service.analyze_resume_with_query (app.llm Sample.globals) text query 200)
         None
         {| main.filename := py "digitalizado.pdf";
            main.content_type := Some (py "application/pdf");
            main.read := Ok (Sample.text_bytes "?|?") |}
         Sample.start
       = (Ok tt, s')
    /\ events s'
       = events Sample.start
         ++ [EvRead (py "digitalizado.pdf"); EvExtract (py "digitalizado.pdf");
             EvClose (py "digitalizado.pdf"); EvInfer (py "digitalizado.pdf") text].
Proof.
  exact (X4_pdf_with_a_page_reaches_the_model Sample.ocr_lib _ _ None
           {| main.filename := py "digitalizado.pdf";
              main.content_type := Some (py "application/pdf");
              main.read := Ok (Sample.text_bytes "?|?") |}
           (Sample.text_bytes "?|?") (Sample.text_bytes "?") [Sample.text_bytes "?"]
           Sample.start eq_refl eq_refl eq_refl).
Defined.

(* ------------------------------------------------------------------ *)
(** ** llm_service *)

(** When importing the module binds the generator, it has bound the
    tokenizer and the model before. *)
Lemma import_binds_all (hub : llm_service.Hub) (p : llm_service.Pipeline) :
  llm_service.text2text_generator (llm_service.import hub) = Some p ->
  exists tok mdl,
    llm_service.AutoTokenizer_from_pretrained hub llm_service.MODEL_NAME = Ok tok
    /\ llm_service.AutoModelForSeq2SeqLM_from_pretrained hub llm_service.MODEL_NAME = Ok mdl
    /\ llm_service.tokenizer (llm_service.import hub) = Some tok
    /\ llm_service.model (llm_service.import hub) = Some mdl.
Proof.
  unfold llm_service.import.
  destruct (llm_service.AutoTokenizer_from_pretrained hub llm_service.MODEL_NAME)
    as [tok|e]; [|discriminate].
  destruct (llm_service.AutoModelForSeq2SeqLM_from_pretrained hub llm_service.MODEL_NAME)
    as [mdl|e]; [|discriminate].
  destruct (llm_service.pipeline hub (py "text2text-generation") mdl tok);
    [|discriminate].
  intros _. exists tok, mdl. repeat split.
Qed.

(** X5. In the application, where the globals are those the import of the
    module leaves, the only exception [generate_summary] lets out is one
    the tokenizer raises on the prompt "summarize: " + text: it never fails
    on an unbound name, and a failure of the model or of the decoding is
    not raised. *)
Theorem X5_generate_summary_raises_only_from_tokenizer
        (hub : llm_service.Hub) (text : str) (max_length min_length : Z) (e : Exc) :
  llm_service.generate_summary (llm_service.import hub) text max_length min_length
  = Raise e ->
  exists tok,
    llm_service.AutoTokenizer_from_pretrained hub llm_service.MODEL_NAME = Ok tok
    /\ llm_service.tokenize tok (py "summarize: " ++ text) 512 = Raise e.
Proof.
  unfold llm_service.generate_summary.
  destruct (llm_service.text2text_generator (llm_service.import hub)) as [p|] eqn:Hg;
    [|discriminate].
  destruct (import_binds_all hub p Hg) as [tok [mdl [Ht [Hm [Etok Emdl]]]]].
  unfold llm_service.the_tokenizer, llm_service.the_model. rewrite Etok, Emdl. cbn.
  destruct (llm_service.tokenize tok (py "summarize: " ++ text) 512) as [inputs|e'] eqn:Hi.
  - cbn. destruct (llm_service.generate mdl inputs _) as [output|e'']; cbn;
      [destruct (llm_service.decode tok output); cbn|]; discriminate.
  - cbn. intros E. injection E as <-. exists tok. split; [exact Ht|exact Hi].
Qed.

Lemma X5_generate_summary_raises_only_from_tokenizer_witness :
  exists tok,
    llm_service.AutoTokenizer_from_pretrained Sample.hub llm_service.MODEL_NAME = Ok tok
    /\ llm_service.tokenize tok (py "summarize: " ++ py "C# dev") 512
       = Raise (Exception (py "cannot encode")).
Proof.
  exact (X5_generate_summary_raises_only_from_tokenizer
           Sample.hub (py "C# dev") 150 30 (Exception (py "cannot encode")) eq_refl).
Defined.

(** X6. Likewise for [analyze_resume_with_query]: the only exception it
    lets out is one the tokenizer raises on the prompt built from the
    resume text and the query. *)
Theorem X6_analyze_raises_only_from_tokenizer
        (hub : llm_service.Hub) (resume_text query : str) (max_length : Z) (e : Exc) :
  llm_service.analyze_resume_with_query (llm_service.import hub)
    resume_text query max_length
  = Raise e ->
  exists tok,
    llm_service.AutoTokenizer_from_pretrained hub llm_service.MODEL_NAME = Ok tok
    /\ llm_service.tokenize tok
         (py "Based on the following resume text, answer the question. Resume text: "
          ++ llm_service.dquote ++ resume_text ++ llm_service.dquote
          ++ py ". Question: " ++ llm_service.dquote ++ query ++ llm_service.dquote)
         1024
       = Raise e.
Proof.
  unfold llm_service.analyze_resume_with_query.
  destruct (llm_service.text2text_generator (llm_service.import hub)) as [p|] eqn:Hg;
    [|discriminate].
  destruct (import_binds_all hub p Hg) as [tok [mdl [Ht [Hm [Etok Emdl]]]]].
  unfold llm_service.the_tokenizer, llm_service.the_model. rewrite Etok, Emdl. cbn.
  match goal with
  | |- context [llm_service.tokenize tok ?prompt 1024] =>
      destruct (llm_service.tokenize tok prompt 1024) as [inputs|e'] eqn:Hi
  end.
  - cbn. destruct (llm_service.generate mdl inputs _) as [output|e'']; cbn;
      [destruct (llm_service.decode tok output); cbn|]; discriminate.
  - cbn. intros E. injection E as <-. exists tok. split; [exact Ht|exact Hi].
Qed.

Lemma X6_analyze_raises_only_from_tokenizer_witness :
  exists tok,
    llm_service.AutoTokenizer_from_pretrained Sample.hub llm_service.MODEL_NAME = Ok tok
    /\ llm_service.tokenize tok
         (py "Based on the following resume text, answer the question. Resume text: "
          ++ llm_service.dquote ++ py "C# dev" ++ llm_service.dquote
          ++ py ". Question: " ++ llm_service.dquote ++ py "AWS?" ++ llm_service.dquote)
         1024
       = Raise (Exception (py "cannot encode")).
Proof.
  exact (X6_analyze_raises_only_from_tokenizer
           Sample.hub (py "C# dev") (py "AWS?") 200 (Exception (py "cannot encode"))
           eq_refl).
Defined.

(* ------------------------------------------------------------------ *)
(** ** Failures of the language model, seen from the handler *)

Section ModelFailures.

Variable extract_text_from_pdf_bytes : bytes -> Result str.
Variable extract_text_from_image_bytes : bytes -> Result str.
Variable g : llm_service.Globals.

Local Abbreviation process_file :=
  (main.process_file extract_text_from_pdf_bytes extract_text_from_image_bytes
     (fun text => llm_service.generate_summary g text 150 30)
     (fun text query => llm_service.analyze_resume_with_query g text query 200)).
Local Abbreviation extract :=
  (main.extract extract_text_from_pdf_bytes extract_text_from_image_bytes).

(** What a turn does with a file whose text is not blank and for which the
    inference returns [r]. *)
Lemma turn_with_answer (query : option str) (file : main.UploadFile)
      (file_bytes : bytes) (text r : str) (s : State) :
  main.read file = Ok file_bytes ->
  extract file file_bytes = Some (Ok text) ->
  forallb isspace text = false ->
  main.infer (fun text => llm_service.generate_summary g text 150 30)
             (fun text query => llm_service.analyze_resume_with_query g text query 200)
             query text = Ok r ->
  exists s',
    process_file query file s = (Ok tt, s')
    /\ processed_results s'
       = processed_results s ++ [main.mode_item query (main.filename file) r]
    /\ files_processed (log_result_summary s') = files_processed (log_result_summary s) + 1
    /\ files_failed (log_result_summary s') = files_failed (log_result_summary s).
Proof.
  intros Hr He Hb Hi. eexists. split; [apply process_file_turn|].
  unfold main.turn. rewrite Hr, He, nonempty_strip, Hb, Hi.
  cbn [negb main.record_turns main.item main.processed processed_results
       log_result_summary map main.count_summary files_processed files_failed
       filter List.length].
  repeat split; lia.
Qed.

(** X7. When the model could not be loaded ([text2text_generator] is
    [None]), the request is still answered: every file with a non-blank
    text gets the text "Erro: LLM não disponível ..." of its mode as its
    result, and the file is counted as processed, not as failed. *)
Theorem X7_model_unavailable_counts_as_processed
        (query : option str) (file : main.UploadFile)
        (file_bytes : bytes) (text : str) (s : State) :
  llm_service.text2text_generator g = None ->
  main.read file = Ok file_bytes ->
  extract file file_bytes = Some (Ok text) ->
  forallb isspace text = false ->
  exists s',
    process_file query file s = (Ok tt, s')
    /\ processed_results s'
       = processed_results s
         ++ [match main.if_query query with
             | Some _ =>
                 ItemAnalysis {| analysis_file_name := main.filename file;
                                 analysis := py "Erro: LLM não disponível para análise." |}
             | None =>
                 ItemSummary {| summary_file_name := main.filename file;
                                summary := py "Erro: LLM não disponível para sumarização." |}
             end]
    /\ files_processed (log_result_summary s') = files_processed (log_result_summary s) + 1
    /\ files_failed (log_result_summary s') = files_failed (log_result_summary s).
Proof.
  intros Hg Hr He Hb.
  destruct (main.if_query query) as [q|] eqn:Hq.
  - destruct (turn_with_answer query file file_bytes text
                (py "Erro: LLM não disponível para análise.") s Hr He Hb)
      as [s' [Hrun H]].
    { unfold main.infer, llm_service.analyze_resume_with_query. now rewrite Hq, Hg. }
    exists s'. split; [exact Hrun|]. unfold main.mode_item in H. now rewrite Hq in H.
  - destruct (turn_with_answer query file file_bytes text
                (py "Erro: LLM não disponível para sumarização.") s Hr He Hb)
      as [s' [Hrun H]].
    { unfold main.infer, llm_service.generate_summary. now rewrite Hq, Hg. }
    exists s'. split; [exact Hrun|]. unfold main.mode_item in H. now rewrite Hq in H.
Qed.

(** X8. When the model is loaded and the tokenizer works but generation
    fails (the model raises on every input), the exception does not reach
    the handler: every file with a non-blank text gets the text "Erro ao
    analisar currículo." or "Erro ao gerar sumário." of its mode as its
    result, and the file is counted as processed, not as failed. *)
Theorem X8_generation_failure_counts_as_processed
        (p : llm_service.Pipeline) (tok : llm_service.Tokenizer) (mdl : llm_service.Model)
        (query : option str) (file : main.UploadFile)
        (file_bytes : bytes) (text : str) (s : State) :
  llm_service.text2text_generator g = Some p ->
  llm_service.tokenizer g = Some tok ->
  llm_service.model g = Some mdl ->
  (forall prompt n, exists inputs, llm_service.tokenize tok prompt n = Ok inputs) ->
  (forall inputs args, exists e, llm_service.generate mdl inputs args = Raise e) ->
  main.read file = Ok file_bytes ->
  extract file file_bytes = Some (Ok text) ->
  forallb isspace text = false ->
  exists s',
    process_file query file s = (Ok tt, s')
    /\ processed_results s'
       = processed_results s
         ++ [match main.if_query query with
             | Some _ =>
                 ItemAnalysis {| analysis_file_name := main.filename file;
                                 analysis := py "Erro ao analisar currículo." |}
             | None =>
                 ItemSummary {| summary_file_name := main.filename file;
                                summary := py "Erro ao gerar sumário." |}
             end]
    /\ files_processed (log_result_summary s') = files_processed (log_result_summary s) + 1
    /\ files_failed (log_result_summary s') = files_failed (log_result_summary s).
Proof.
  intros Hg Ht Hm Htok Hgen Hr He Hb.
  destruct (main.if_query query) as [q|] eqn:Hq.
  - destruct (turn_with_answer query file file_bytes text
                (py "Erro ao analisar currículo.") s Hr He Hb)
      as [s' [Hrun H]].
    { unfold main.infer, llm_service.analyze_resume_with_query,
        llm_service.the_tokenizer, llm_service.the_model.
      rewrite Hq, Hg, Ht, Hm. cbn.
      match goal with
      | |- context [llm_service.tokenize tok ?prompt 1024] =>
          destruct (Htok prompt 1024%Z) as [inputs ->]
      end.
      cbn.
      match goal with
      | |- context [llm_service.generate mdl inputs ?args] =>
          destruct (Hgen inputs args) as [e ->]
      end.
      reflexivity. }
    exists s'. split; [exact Hrun|]. unfold main.mode_item in H. now rewrite Hq in H.
  - destruct (turn_with_answer query file file_bytes text
                (py "Erro ao gerar sumário.") s Hr He Hb)
      as [s' [Hrun H]].
    { unfold main.infer, llm_service.generate_summary,
        llm_service.the_tokenizer, llm_service.the_model.
      rewrite Hq, Hg, Ht, Hm. cbn.
      match goal with
      | |- context [llm_service.tokenize tok ?prompt 512] =>
          destruct (Htok prompt 512%Z) as [inputs ->]
      end.
      cbn.
      match goal with
      | |- context [llm_service.generate mdl inputs ?args] =>
          destruct (Hgen inputs args) as [e ->]
      end.
      reflexivity. }
    exists s'. split; [exact Hrun|]. unfold main.mode_item in H. now rewrite Hq in H.
Qed.

End ModelFailures.

(** A tokenizer that accepts every prompt and a model that cannot
    generate, for the sample world. *)
Definition plain_tokenizer : llm_service.Tokenizer :=
  {| llm_service.tokenize := fun prompt max_length => Ok (map Z.of_N prompt);
     llm_service.decode := fun o => Ok (map Z.to_N o) |}.

Definition broken_model : llm_service.Model :=
  {| llm_service.generate := fun inputs args => Raise (Exception (py "out of memory")) |}.

Definition broken_globals : llm_service.Globals :=
  {| llm_service.tokenizer := Some plain_tokenizer;
     llm_service.model := Some broken_model;
     llm_service.text2text_generator :=
       Some {| llm_service.task := py "text2text-generation";
               llm_service.pipeline_model := broken_model;
               llm_service.pipeline_tokenizer := plain_tokenizer |} |}.

Lemma X7_model_unavailable_counts_as_processed_witness :
  exists s',
    main.process_file
      (ocr_service.extract_text_from_pdf_bytes Sample.ocr_lib)
      (ocr_service.extract_text_from_image_bytes Sample.ocr_lib)
      (fun text =>
         llm_service.generate_summary (llm_service.import Sample.offline_hub) text 150 30)
      (fun text query =>
         llm_service.analyze_resume_with_query (llm_service.import Sample.offline_hub)
           text query 200)
      None Sample.foto_png Sample.start
    = (Ok tt, s')
    /\ processed_results s'
       = [ItemSummary {| summary_file_name := py "foto.PNG";
                         summary := py "Erro: LLM não disponível para sumarização." |}]
    /\ files_processed (log_result_summary s') = 1
    /\ files_failed (log_result_summary s') = 0.
Proof.
  exact (X7_model_unavailable_counts_as_processed
           (ocr_service.extract_text_from_pdf_bytes Sample.ocr_lib)
           (ocr_service.extract_text_from_image_bytes Sample.ocr_lib)
           (llm_service.import Sample.offline_hub)
           None Sample.foto_png (Sample.text_bytes "Java") (py "Java") Sample.start
           eq_refl eq_refl eq_refl eq_refl).
Defined.

Lemma X8_generation_failure_counts_as_processed_witness :
  exists s',
    main.process_file
      (ocr_service.extract_text_from_pdf_bytes Sample.ocr_lib)
      (ocr_service.extract_text_from_image_bytes Sample.ocr_lib)
      (fun text => llm_service.generate_summary broken_globals text 150 30)
      (fun text query =>
         llm_service.analyze_resume_with_query broken_globals text query 200)
      (Some (py "AWS?")) Sample.foto_png Sample.start
    = (Ok tt, s')
    /\ processed_results s'
       = [ItemAnalysis {| analysis_file_name := py "foto.PNG";
                          analysis := py "Erro ao analisar currículo." |}]
    /\ files_processed (log_result_summary s') = 1
    /\ files_failed (log_result_summary s') = 0.
Proof.
  exact (X8_generation_failure_counts_as_processed
           (ocr_service.extract_text_from_pdf_bytes Sample.ocr_lib)
           (ocr_service.extract_text_from_image_bytes Sample.ocr_lib)
           broken_globals
           {| llm_service.task := py "text2text-generation";
              llm_service.pipeline_model := broken_model;
              llm_service.pipeline_tokenizer := plain_tokenizer |}
           plain_tokenizer broken_model
           (Some (py "AWS?")) Sample.foto_png (Sample.text_bytes "Java") (py "Java")
           Sample.start
           eq_refl eq_refl eq_refl
           (fun prompt n => ex_intro _ (map Z.of_N prompt) eq_refl)
           (fun inputs args => ex_intro _ (Exception (py "out of memory")) eq_refl)
           eq_refl eq_refl eq_refl).
Defined.

(* ------------------------------------------------------------------ *)
(** ** The handler: what is logged, batches, the unsupported-type branch *)

Lemma as_summaries_with_dict (before after : list ResultItem) (file_name error : str) :
  main.as_summaries (before ++ ItemDict file_name error :: after) = None.
Proof.
  induction before as [|it before IH]; [reflexivity|].
  cbn [app main.as_summaries]. destruct it; try reflexivity. now rewrite IH.
Qed.

Lemma as_analyses_with_dict (before after : list ResultItem) (file_name error : str) :
  main.as_analyses (before ++ ItemDict file_name error :: after) = None.
Proof.
  induction before as [|it before IH]; [reflexivity|].
  cbn [app main.as_analyses]. destruct it; try reflexivity. now rewrite IH.
Qed.

Section MoreHandler.

Variable extract_text_from_pdf_bytes : bytes -> Result str.
Variable extract_text_from_image_bytes : bytes -> Result str.
Variable generate_summary : str -> Result str.
Variable analyze_resume_with_query : str -> str -> Result str.
Variable lib : db_service.Lib.
Variable g : db_service.Globals.
Variable iter_ALLOWED_MIME_TYPES : list str.
Variable validation_text : list ResultItem -> str.

Local Abbreviation process_file :=
  (main.process_file extract_text_from_pdf_bytes extract_text_from_image_bytes
                     generate_summary analyze_resume_with_query).
Local Abbreviation endpoint :=
  (main.process_resumes_endpoint
     extract_text_from_pdf_bytes extract_text_from_image_bytes
     generate_summary analyze_resume_with_query
     (db_service.log_usage lib g) iter_ALLOWED_MIME_TYPES validation_text).

Local Abbreviation the_summary :=
  (closing_summary extract_text_from_pdf_bytes extract_text_from_image_bytes
                   generate_summary analyze_resume_with_query).

(** X9. A request whose files pass validation calls [log_usage] once, with
    the request id, the user id and the query as submitted and a result
    summary whose [operation_type] is "analysis" when the query is a
    non-empty string and "summary" otherwise, and whose two counters add up
    to the number of files. The request adds at most one document to the
    log, after the documents that were there: the one made of these four
    values and the time of the call. It adds it exactly when the log
    collection handle is bound to a collection whose truth test gives true
    and [insert_one] accepts the document. *)
Theorem X9_logged_document (files : list main.UploadFile)
        (user_id request_id : str) (query : option str) (s : State) :
  Forall main.passes_validation files ->
  exists r s' summary docs,
    endpoint files user_id request_id query s = (r, s')
    /\ filter main.is_log_call (events s')
       = filter main.is_log_call (events s)
         ++ [EvLogUsage request_id user_id query summary]
    /\ operation_type summary
       = match query with
         | Some (_ :: _) => py "analysis"
         | _ => py "summary"
         end
    /\ files_processed summary + files_failed summary = List.length files
    /\ usage_logs s' = usage_logs s ++ docs
    /\ (docs = []
        \/ docs = [{| doc_request_id := request_id;
                      doc_user_id := user_id;
                      timestamp := db_service.utcnow lib;
                      query_text := query;
                      result_summary := summary |}])
    /\ (docs = [{| doc_request_id := request_id;
                   doc_user_id := user_id;
                   timestamp := db_service.utcnow lib;
                   query_text := query;
                   result_summary := summary |}]
        <-> exists coll u,
              db_service.logs_collection g = Some coll
              /\ db_service.collection_bool lib coll = Ok true
              /\ db_service.insert_one lib coll
                   {| doc_request_id := request_id;
                      doc_user_id := user_id;
                      timestamp := db_service.utcnow lib;
                      query_text := query;
                      result_summary := summary |} = Ok u).
Proof.
  intros Hv.
  eexists. eexists. exists (the_summary query files). eexists.
  split; [apply endpoint_accepts; exact Hv|].
  cbn [usage_logs events closing_state].
  split.
  { rewrite !filter_app. rewrite validations_no_log, blocks_no_log. cbn.
    destruct (db_service.log_outcome lib g); cbn; now rewrite ?app_nil_r. }
  split; [destruct query as [[|c q]|]; reflexivity|].
  split; [apply closing_summary_total|].
  split; [reflexivity|].
  unfold db_service.logged, db_service.bool_of_handle.
  destruct (db_service.logs_collection g) as [coll|].
  2: { split; [now left|]. split; [discriminate|].
       intros [coll [u [H _]]]. discriminate. }
  destruct (db_service.collection_bool lib coll) as [[|]|e] eqn:Hb.
  - destruct (db_service.insert_one lib coll _) as [u|e] eqn:Hi.
    + split; [now right|]. split; [|reflexivity].
      intros _. exists coll, u. repeat split; assumption.
    + split; [now left|]. split; [discriminate|].
      intros [coll' [u [Hc [_ Hi']]]]. injection Hc as <-.
      rewrite Hi in Hi'. discriminate.
  - split; [now left|]. split; [discriminate|].
    intros [coll' [u [Hc [Hb' _]]]]. injection Hc as <-.
    rewrite Hb in Hb'. discriminate.
  - split; [now left|]. split; [discriminate|].
    intros [coll' [u [Hc [Hb' _]]]]. injection Hc as <-.
    rewrite Hb in Hb'. discriminate.
Qed.

(** X10. The result of a file does not depend on the other files of the
    request: for requests whose files pass validation and whose call of
    [log_usage] returns, the results of a request for [files1 ++ files2]
    are the results of a request for [files1] followed by those of a
    request for [files2], whatever the state each request starts from. *)
Theorem X10_results_of_a_batch (files1 files2 : list main.UploadFile)
        (user_id request_id : str) (query : option str) (s s1 s2 : State) :
  Forall main.passes_validation files1 ->
  Forall main.passes_validation files2 ->
  db_service.guard_returns lib g ->
  exists r r1 r2,
    fst (endpoint (files1 ++ files2) user_id request_id query s) = Ok r
    /\ fst (endpoint files1 user_id request_id query s1) = Ok r1
    /\ fst (endpoint files2 user_id request_id query s2) = Ok r2
    /\ main.results_of r = main.results_of r1 ++ main.results_of r2.
Proof.
  intros H1 H2 Hg.
  assert (Forall main.passes_validation (files1 ++ files2)) as H12
    by (apply Forall_app; split; assumption).
  eexists. eexists. eexists.
  rewrite !endpoint_accepts by assumption.
  unfold closing_result. rewrite (log_outcome_returns lib g Hg). cbn [fst].
  split; [reflexivity|]. split; [reflexivity|]. split; [reflexivity|].
  rewrite !built_response_results. apply map_app.
Qed.

(** X17. For every request whose files all pass validation and whose call
    of [log_usage] returns, the response has exactly one result per
    uploaded file, in upload order, each under the name of its file;
    [log_usage] was called once, with a result summary whose
    [files_processed] and [files_failed] add up to the number of uploaded
    files, and a document added to the log collection carries that
    summary. *)
Theorem X17_one_result_per_file (files : list main.UploadFile)
        (user_id request_id : str) (query : option str) (s : State) :
  Forall main.passes_validation files ->
  db_service.guard_returns lib g ->
  exists response s' summary,
    endpoint files user_id request_id query s = (Ok response, s')
    /\ main.results_file_names response = map main.filename files
    /\ filter main.is_log_call (events s')
       = filter main.is_log_call (events s)
         ++ [EvLogUsage request_id user_id query summary]
    /\ files_processed summary + files_failed summary = List.length files
    /\ exists docs,
         usage_logs s' = usage_logs s ++ docs
         /\ Forall (fun doc => result_summary doc = summary) docs
         /\ List.length docs <= 1.
Proof.
  intros Hv Hg.
  eexists. eexists. exists (the_summary query files).
  split.
  { rewrite endpoint_accepts by exact Hv. unfold closing_result.
    rewrite (log_outcome_returns lib g Hg). reflexivity. }
  split; [apply built_response_names|].
  cbn [events usage_logs closing_state].
  rewrite (log_outcome_returns lib g Hg).
  split.
  { rewrite !filter_app. rewrite validations_no_log, blocks_no_log. reflexivity. }
  split; [apply closing_summary_total|].
  eexists. split; [reflexivity|]. apply logged_summary.
Qed.

(** X18. When the truth test of the log collection handle returns,
    [log_usage] does not raise, whatever its arguments: it returns and
    leaves the locals of the handler and its calls as they are; and when
    the handle is [None], when the truth test gives false or when the
    insert raises, it leaves the whole state as it found it: the exception
    of [insert_one] is caught. A request whose files pass validation is
    then answered with the same response whatever the driver and the
    handle, and so whether the write succeeds or not. *)
Theorem X18_log_usage_returns_when_truth_test_does
        (request_id user_id : str) (query : option str)
        (result_summary : LogResultSummary) (files : list main.UploadFile)
        (lib' : db_service.Lib) (g' : db_service.Globals) (s : State) :
  db_service.guard_returns lib g ->
  db_service.guard_returns lib' g' ->
  (exists s',
      db_service.log_usage lib g request_id user_id query result_summary s = (Ok tt, s')
      /\ events s' = events s
      /\ processed_results s' = processed_results s
      /\ log_result_summary s' = log_result_summary s
      /\ (db_service.logs_collection g = None -> s' = s)
      /\ (forall coll,
            db_service.logs_collection g = Some coll ->
            db_service.collection_bool lib coll = Ok false ->
            s' = s)
      /\ (forall coll e,
            db_service.logs_collection g = Some coll ->
            db_service.insert_one lib coll
              {| doc_request_id := request_id;
                 doc_user_id := user_id;
                 timestamp := db_service.utcnow lib;
                 query_text := query;
                 result_summary := result_summary |} = Raise e ->
            s' = s))
  /\ fst (endpoint files user_id request_id query s)
     = fst (main.process_resumes_endpoint
              extract_text_from_pdf_bytes extract_text_from_image_bytes
              generate_summary analyze_resume_with_query
              (db_service.log_usage lib' g') iter_ALLOWED_MIME_TYPES validation_text
              files user_id request_id query s).
Proof.
  intros Hg Hg'. split.
  - eexists. split.
    { rewrite log_usage_run, (log_outcome_returns lib g Hg). reflexivity. }
    cbn [events processed_results log_result_summary db_service.add_logs].
    repeat split.
    + intros Hn. unfold db_service.logged. rewrite Hn. cbn. apply add_logs_nil.
    + intros coll Hc Hb. unfold db_service.logged, db_service.bool_of_handle.
      rewrite Hc, Hb. apply add_logs_nil.
    + intros coll e Hc Hi. unfold db_service.logged, db_service.bool_of_handle.
      rewrite Hc, Hi.
      destruct (db_service.collection_bool lib coll) as [[|]|e']; apply add_logs_nil.
  - destruct (all_pass_or_one_fails files) as [Hv|Hx].
    + rewrite !endpoint_accepts by exact Hv. unfold closing_result.
      rewrite (log_outcome_returns lib g Hg), (log_outcome_returns lib' g' Hg').
      reflexivity.
    + destruct (endpoint_rejects extract_text_from_pdf_bytes
                  extract_text_from_image_bytes generate_summary
                  analyze_resume_with_query iter_ALLOWED_MIME_TYPES validation_text
                  files query Hx) as [k [detail [_ Hrun]]].
      rewrite !Hrun. reflexivity.
Qed.

(** X11. The branch of the second loop for a MIME type that is none of the
    three handled, which validation makes unreachable, appends a dict with
    an "error" key after reading the file, extracts nothing and counts the
    file as failed. With such a dict among the results neither response can
    be built: the check of the results against the response model fails. *)
Theorem X11_unsupported_type_branch (query : option str) (file : main.UploadFile)
        (file_bytes : bytes) (s : State) :
  (forall m, main.content_type file = Some m -> ~ In m main.ALLOWED_MIME_TYPES) ->
  main.read file = Ok file_bytes ->
  exists s',
    process_file query file s = (Ok tt, s')
    /\ events s' = events s ++ [EvRead (main.filename file)]
    /\ processed_results s'
       = processed_results s
         ++ [ItemDict (main.filename file)
               (py "Tipo de arquivo não suportado ou erro na leitura inicial.")]
    /\ files_failed (log_result_summary s') = files_failed (log_result_summary s) + 1
    /\ files_processed (log_result_summary s') = files_processed (log_result_summary s)
    /\ (forall request_id s2,
          main.new_SummaryResponse validation_text request_id (processed_results s') s2
          = (Raise (ValidationError (validation_text (processed_results s'))), s2))
    /\ (forall request_id query_used s2,
          main.new_AnalysisResponse validation_text request_id query_used
            (processed_results s') s2
          = (Raise (ValidationError (validation_text (processed_results s'))), s2)).
Proof.
  intros Hm Hr.
  assert (main.extract extract_text_from_pdf_bytes extract_text_from_image_bytes
            file file_bytes = None) as He.
  { unfold main.extract.
    destruct (main.opt_eqb (main.content_type file) (py "application/pdf")) eqn:E1.
    { destruct (main.content_type file) as [m|] eqn:Em; [|discriminate].
      cbn in E1. apply str_eqb_eq in E1. subst m.
      destruct (Hm _ eq_refl). unfold main.ALLOWED_MIME_TYPES. simpl. tauto. }
    destruct (main.opt_in (main.content_type file) [py "image/png"; py "image/jpeg"])
      eqn:E2; [|reflexivity].
    apply opt_in_In in E2. destruct E2 as [m [Em Hin]].
    destruct (Hm m Em). unfold main.ALLOWED_MIME_TYPES. simpl in *. tauto. }
  eexists. split; [apply process_file_turn|].
  unfold main.turn. rewrite Hr, He.
  cbn [main.record_turns main.calls main.item main.processed events processed_results
       log_result_summary flat_map map main.count_summary files_failed files_processed
       filter negb List.length app].
  split; [reflexivity|]. split; [reflexivity|]. split; [lia|]. split; [lia|].
  split.
  - intros request_id s2. unfold main.new_SummaryResponse.
    now rewrite as_summaries_with_dict.
  - intros request_id query_used s2. unfold main.new_AnalysisResponse.
    now rewrite as_analyses_with_dict.
Qed.

End MoreHandler.

(** X12. When MongoDB cannot be reached while the module is imported (the
    client cannot be created, or it does not answer the ping), [log_usage]
    writes nothing for as long as the application runs, also when an insert
    would succeed by then: every call returns and leaves the state as it
    is. *)
Theorem X12_no_log_after_failed_connection (lib : db_service.Lib) (e : Exc)
        (request_id user_id : str) (query_text : option str)
        (result_summary : LogResultSummary) (s : State) :
  db_service.MongoClient lib (db_service.MONGODB_URI lib) = Raise e
  \/ (exists c, db_service.MongoClient lib (db_service.MONGODB_URI lib) = Ok c
                /\ db_service.ping lib c = Raise e) ->
  db_service.log_usage lib (db_service.import lib)
    request_id user_id query_text result_summary s
  = (Ok tt, s).
Proof.
  intros H.
  assert (db_service.import lib = db_service.unavailable) as ->.
  { unfold db_service.import. destruct H as [H|[c [Hc Hp]]].
    - now rewrite H.
    - rewrite Hc, Hp.
      destruct (db_service.get_database lib c (db_service.DATABASE_NAME lib))
        as [d|e1]; [|reflexivity].
      destruct (db_service.get_collection lib d (py "usage_logs")); reflexivity. }
  rewrite log_usage_run. cbn. now rewrite add_logs_nil.
Qed.

(** X19. Importing [db_service] binds its three handles together: either
    the client was created, the database and the collection were obtained
    from it and the server answered the ping, and then [client], [db] and
    [logs_collection] are these three objects; or one of the four steps
    raised, and then all three are [None]. In particular a database name
    the driver refuses leaves the application without a log, with a server
    that answers. *)
Theorem X19_import_binds_all_or_nothing (lib : db_service.Lib) :
  (exists c d coll u,
      db_service.MongoClient lib (db_service.MONGODB_URI lib) = Ok c
      /\ db_service.get_database lib c (db_service.DATABASE_NAME lib) = Ok d
      /\ db_service.get_collection lib d (py "usage_logs") = Ok coll
      /\ db_service.ping lib c = Ok u
      /\ db_service.import lib
         = {| db_service.client := Some c;
              db_service.db := Some d;
              db_service.logs_collection := Some coll |})
  \/ ((exists e,
         db_service.MongoClient lib (db_service.MONGODB_URI lib) = Raise e
         \/ (exists c,
               db_service.MongoClient lib (db_service.MONGODB_URI lib) = Ok c
               /\ (db_service.get_database lib c (db_service.DATABASE_NAME lib) = Raise e
                   \/ (exists d,
                         db_service.get_database lib c (db_service.DATABASE_NAME lib) = Ok d
                         /\ db_service.get_collection lib d (py "usage_logs") = Raise e)
                   \/ db_service.ping lib c = Raise e)))
      /\ db_service.import lib
         = {| db_service.client := None;
              db_service.db := None;
              db_service.logs_collection := None |}).
Proof.
  unfold db_service.import, db_service.unavailable.
  destruct (db_service.MongoClient lib (db_service.MONGODB_URI lib)) as [c|e].
  2: { right. split; [|reflexivity]. exists e. now left. }
  destruct (db_service.get_database lib c (db_service.DATABASE_NAME lib)) as [d|e] eqn:Hd.
  2: { right. split; [|reflexivity]. exists e. right. exists c.
       split; [reflexivity|]. now left. }
  destruct (db_service.get_collection lib d (py "usage_logs")) as [coll|e] eqn:Hc.
  2: { right. split; [|reflexivity]. exists e. right. exists c.
       split; [reflexivity|]. right. left. exists d. now split. }
  destruct (db_service.ping lib c) as [u|e] eqn:Hp.
  - left. exists c, d, coll, u. repeat split; assumption.
  - right. split; [|reflexivity]. exists e. right. exists c.
    split; [reflexivity|]. now right; right.
Qed.

Lemma notas_txt_mime :
  forall m, main.content_type Sample.notas_txt = Some m -> ~ In m main.ALLOWED_MIME_TYPES.
Proof.
  intros m E. injection E as <-. vm_compute.
  intros [H|[H|[H|[]]]]; discriminate.
Qed.

(** In the world of the earlier driver the handle is bound and its truth
    test gives true. *)
Lemma legacy_collection :
  db_service.logs_collection (app.dbg Sample.globals_legacy)
  = Some (db_service.MkCollection
            (db_service.MkDatabase
               (db_service.MkClient (py "mongodb://localhost:27017/"))
               (py "resume_analyzer_logs"))
            (py "usage_logs")).
Proof. reflexivity. Qed.

Lemma legacy_guard_returns :
  db_service.guard_returns Sample.mongo_legacy (app.dbg Sample.globals_legacy).
Proof. exists true. reflexivity. Qed.

Lemma X9_logged_document_witness :
  exists r s' summary,
    Sample.run_legacy [Sample.cv_pdf; Sample.vazio_jpg]
      (py "fabio_techmatch") (py "r1") (Some (py "AWS?")) Sample.start
    = (r, s')
    /\ usage_logs s'
       = [{| doc_request_id := py "r1";
             doc_user_id := py "fabio_techmatch";
             timestamp := 1700000000;
             query_text := Some (py "AWS?");
             result_summary := summary |}]
    /\ operation_type summary = py "analysis"
    /\ files_processed summary + files_failed summary = 2.
Proof.
  destruct (X9_logged_document
              (ocr_service.extract_text_from_pdf_bytes Sample.ocr_lib)
              (ocr_service.extract_text_from_image_bytes Sample.ocr_lib)
              (fun text =>
                 llm_service.generate_summary (app.llm Sample.globals_legacy) text 150 30)
              (fun text query =>
                 llm_service.analyze_resume_with_query (app.llm Sample.globals_legacy)
                   text query 200)
              Sample.mongo_legacy (app.dbg Sample.globals_legacy)
              main.ALLOWED_MIME_TYPES (fun _ => py "validation error")
              [Sample.cv_pdf; Sample.vazio_jpg]
              (py "fabio_techmatch") (py "r1") (Some (py "AWS?")) Sample.start)
    as [r [s' [summary [docs [Hrun [_ [Hop [Hsum [Hlogs [_ [_ Hdocs]]]]]]]]]]].
  { constructor; [apply cv_pdf_passes|].
    constructor; [apply vazio_jpg_passes|constructor]. }
  exists r, s', summary. split; [exact Hrun|].
  split.
  { rewrite Hlogs, Hdocs; [reflexivity|].
    eexists. exists tt. split; [exact legacy_collection|]. split; reflexivity. }
  split; [rewrite Hop; vm_compute; reflexivity|exact Hsum].
Defined.

Lemma X10_results_of_a_batch_witness :
  exists r r1 r2,
    fst (Sample.run_unlogged ([Sample.cv_pdf] ++ [Sample.foto_png])
           (py "fabio_techmatch") (py "r1") None Sample.start) = Ok r
    /\ fst (Sample.run_unlogged [Sample.cv_pdf]
              (py "fabio_techmatch") (py "r1") None Sample.start) = Ok r1
    /\ fst (Sample.run_unlogged [Sample.foto_png]
              (py "fabio_techmatch") (py "r1") None Sample.start) = Ok r2
    /\ main.results_of r = main.results_of r1 ++ main.results_of r2.
Proof.
  unfold Sample.run_unlogged, app.process_resumes_endpoint.
  apply X10_results_of_a_batch.
  - constructor; [apply cv_pdf_passes|constructor].
  - constructor; [apply foto_png_passes|constructor].
  - exact unlogged_guard_returns.
Defined.

Lemma X17_one_result_per_file_witness :
  exists response s' summary,
    Sample.run_legacy
      [Sample.cv_pdf; Sample.foto_png; Sample.vazio_jpg; Sample.cerquilha_png]
      (py "fabio_techmatch") (py "r1") (Some (py "AWS?")) Sample.start
    = (Ok response, s')
    /\ main.results_file_names response
       = [py "cv.pdf"; py "foto.PNG"; py "vazio.jpg"; py "cerquilha.png"]
    /\ filter main.is_log_call (events s')
       = [EvLogUsage (py "r1") (py "fabio_techmatch") (Some (py "AWS?")) summary]
    /\ files_processed summary + files_failed summary = 4.
Proof.
  destruct (X17_one_result_per_file
              (ocr_service.extract_text_from_pdf_bytes Sample.ocr_lib)
              (ocr_service.extract_text_from_image_bytes Sample.ocr_lib)
              (fun text =>
                 llm_service.generate_summary (app.llm Sample.globals_legacy) text 150 30)
              (fun text query =>
                 llm_service.analyze_resume_with_query (app.llm Sample.globals_legacy)
                   text query 200)
              Sample.mongo_legacy (app.dbg Sample.globals_legacy)
              main.ALLOWED_MIME_TYPES (fun _ => py "validation error")
              [Sample.cv_pdf; Sample.foto_png; Sample.vazio_jpg; Sample.cerquilha_png]
              (py "fabio_techmatch") (py "r1") (Some (py "AWS?")) Sample.start
              sample_files_pass legacy_guard_returns)
    as [response [s' [summary [Hrun [Hnames [Hlog [Hsum _]]]]]]].
  exists response, s', summary. split; [exact Hrun|].
  split; [rewrite Hnames; reflexivity|]. split; [exact Hlog|exact Hsum].
Defined.

Lemma X18_log_usage_returns_when_truth_test_does_witness :
  db_service.log_usage Sample.mongo_read_only (db_service.import Sample.mongo_read_only)
    (py "r1") (py "fabio_techmatch") None
    {| files_processed := 1; files_failed := 0; operation_type := py "summary" |}
    Sample.start
  = (Ok tt, Sample.start)
  /\ fst (app.process_resumes_endpoint (Sample.env_with Sample.mongo_read_only)
            (app.import Sample.hub (Sample.env_with Sample.mongo_read_only))
            [Sample.cv_pdf] (py "fabio_techmatch") (py "r1") None Sample.start)
     = fst (Sample.run_legacy [Sample.cv_pdf] (py "fabio_techmatch") (py "r1") None
              Sample.start).
Proof.
  destruct (X18_log_usage_returns_when_truth_test_does
              (ocr_service.extract_text_from_pdf_bytes Sample.ocr_lib)
              (ocr_service.extract_text_from_image_bytes Sample.ocr_lib)
              (fun text => llm_service.generate_summary
                             (llm_service.import Sample.hub) text 150 30)
              (fun text query =>
                 llm_service.analyze_resume_with_query
                   (llm_service.import Sample.hub) text query 200)
              Sample.mongo_read_only (db_service.import Sample.mongo_read_only)
              main.ALLOWED_MIME_TYPES (fun _ => py "validation error")
              (py "r1") (py "fabio_techmatch") None
              {| files_processed := 1; files_failed := 0; operation_type := py "summary" |}
              [Sample.cv_pdf]
              Sample.mongo_legacy (db_service.import Sample.mongo_legacy) Sample.start)
    as [[s' [Hrun [_ [_ [_ [_ [_ Hins]]]]]]] Hsame].
  { exists true. reflexivity. }
  { exists true. reflexivity. }
  split; [|exact Hsame].
  rewrite Hrun. f_equal. eapply Hins; reflexivity.
Defined.

Lemma X11_unsupported_type_branch_witness :
  exists s',
    main.process_file
      (ocr_service.extract_text_from_pdf_bytes Sample.ocr_lib)
      (ocr_service.extract_text_from_image_bytes Sample.ocr_lib)
      (fun text => llm_service.generate_summary (app.llm Sample.globals) text 150 30)
      (fun text query =>
         llm_service.analyze_resume_with_query (app.llm Sample.globals) text query 200)
      None Sample.notas_txt Sample.start
    = (Ok tt, s')
    /\ events s' = [EvRead (py "notas.txt")]
    /\ processed_results s'
       = [ItemDict (py "notas.txt")
            (py "Tipo de arquivo não suportado ou erro na leitura inicial.")]
    /\ main.new_SummaryResponse (fun _ => py "validation error") (py "r1")
         (processed_results s') Sample.start
       = (Raise (ValidationError (py "validation error")), Sample.start).
Proof.
  destruct (X11_unsupported_type_branch
              (ocr_service.extract_text_from_pdf_bytes Sample.ocr_lib)
              (ocr_service.extract_text_from_image_bytes Sample.ocr_lib)
              (fun text => llm_service.generate_summary (app.llm Sample.globals) text 150 30)
              (fun text query =>
                 llm_service.analyze_resume_with_query (app.llm Sample.globals)
                   text query 200)
              (fun _ => py "validation error")
              None Sample.notas_txt (Sample.text_bytes "notas") Sample.start
              notas_txt_mime eq_refl)
    as [s' [Hrun [Hev [Hres [_ [_ [Hsum _]]]]]]].
  exists s'. split; [exact Hrun|]. split; [exact Hev|]. split; [exact Hres|].
  exact (Hsum (py "r1") Sample.start).
Defined.

Lemma X12_no_log_after_failed_connection_witness :
  db_service.log_usage Sample.mongo_down (db_service.import Sample.mongo_down)
    (py "r1") (py "fabio_techmatch") None
    {| files_processed := 1; files_failed := 0; operation_type := py "summary" |}
    Sample.start
  = (Ok tt, Sample.start).
Proof.
  apply (X12_no_log_after_failed_connection Sample.mongo_down
           (Exception (py "connection refused"))).
  right. eexists. split; reflexivity.
Defined.

(* ------------------------------------------------------------------ *)
(** ** What validation looks at *)

(** X13. For a file named [base.ext], where [ext] has no dot, one turn of
    the validation loop returns normally exactly when the MIME type is one
    of the three allowed and [ext.lower()] is one of the four allowed
    extensions. The two are checked independently: the extension is not
    compared with the MIME type, and the letter case of the extension does
    not matter. *)
Theorem X13_validation_accepts (iter_ALLOWED_MIME_TYPES : list str)
        (file : main.UploadFile) (base ext : str) (s : State) :
  main.filename file = base ++ py "." ++ ext ->
  char_in (chr ".") ext = false ->
  (main.validate_file iter_ALLOWED_MIME_TYPES file s
   = (Ok tt, add_events [EvValidate (main.filename file)] s))
  <-> ((exists m, main.content_type file = Some m /\ In m main.ALLOWED_MIME_TYPES)
       /\ In (lower ext) main.ALLOWED_EXTENSIONS).
Proof.
  intros Hn He.
  assert (main.get_file_extension (main.filename file) = Some (lower ext)) as Hx
    by (rewrite Hn; apply (extension_of_dotted_name base ext He)).
  split.
  - intros Hrun. destruct (passes_or_fails file) as [[Hm [e [Ee Hi]]]|Hf].
    + split; [exact Hm|]. rewrite Hx in Ee. injection Ee as <-. exact Hi.
    + destruct (validate_file_fails iter_ALLOWED_MIME_TYPES file Hf) as [detail Hd].
      rewrite Hd in Hrun. discriminate.
  - intros [Hm Hi]. apply validate_file_passes.
    split; [exact Hm|]. exists (lower ext). split; [exact Hx|exact Hi].
Qed.

Lemma X13_validation_accepts_witness :
  main.validate_file main.ALLOWED_MIME_TYPES
    {| main.filename := py "cv.final" ++ py "." ++ py "JPG";
       main.content_type := Some (py "application/pdf");
       main.read := Ok [] |}
    Sample.start
  = (Ok tt, add_events [EvValidate (py "cv.final" ++ py "." ++ py "JPG")] Sample.start).
Proof.
  apply (proj2 (X13_validation_accepts main.ALLOWED_MIME_TYPES
                  {| main.filename := py "cv.final" ++ py "." ++ py "JPG";
                     main.content_type := Some (py "application/pdf");
                     main.read := Ok [] |}
                  (py "cv.final") (py "JPG") Sample.start eq_refl eq_refl)).
  split.
  - exists (py "application/pdf"). split; [reflexivity|]. simpl. tauto.
  - right. right. left. vm_compute. reflexivity.
Defined.

(* ------------------------------------------------------------------ *)
(** ** Files the OCR stack cannot read, seen from the handler *)

Section UnreadableFiles.

Variable lib : ocr_service.Lib.
Variable generate_summary : str -> Result str.
Variable analyze_resume_with_query : str -> str -> Result str.

Local Abbreviation process_file :=
  (main.process_file
     (ocr_service.extract_text_from_pdf_bytes lib)
     (ocr_service.extract_text_from_image_bytes lib)
     generate_summary analyze_resume_with_query).

Lemma turn_without_text (query : option str) (file : main.UploadFile)
      (file_bytes : bytes) (s : State) :
  main.read file = Ok file_bytes ->
  main.extract (ocr_service.extract_text_from_pdf_bytes lib)
               (ocr_service.extract_text_from_image_bytes lib) file file_bytes
  = Some (Ok []) ->
  exists s',
    process_file query file s = (Ok tt, s')
    /\ events s'
       = events s ++ [EvRead (main.filename file); EvExtract (main.filename file);
                      EvClose (main.filename file)]
    /\ processed_results s'
       = processed_results s
         ++ [match main.if_query query with
             | Some _ =>
                 ItemAnalysis {| analysis_file_name := main.filename file;
                                 analysis := py "Nenhum texto extraído do arquivo." |}
             | None =>
                 ItemSummary {| summary_file_name := main.filename file;
                                summary := py "Nenhum texto extraído do arquivo." |}
             end]
    /\ files_failed (log_result_summary s') = files_failed (log_result_summary s) + 1.
Proof.
  intros Hr He. eexists. split; [apply process_file_turn|].
  unfold main.turn. rewrite Hr, He.
  cbn [strip rstrip lstrip rev nonempty negb main.record_turns main.calls main.item
       main.processed events processed_results log_result_summary flat_map map
       main.count_summary files_failed filter List.length app].
  unfold main.mode_item, main.NO_TEXT. repeat split; try reflexivity; lia.
Qed.

(** X14. A PDF that cannot be converted to images, or that converts to no
    page, is not reported as an error of the file: the extraction returns
    the empty text, the handler takes the "Nenhum texto extraído" branch,
    does not call the language model and counts the file as failed. *)
Theorem X14_unreadable_pdf_has_no_text (query : option str) (file : main.UploadFile)
        (file_bytes : bytes) (s : State) :
  main.content_type file = Some (py "application/pdf") ->
  main.read file = Ok file_bytes ->
  ocr_service.convert_from_bytes lib file_bytes 200 = Ok []
  \/ (exists e, ocr_service.convert_from_bytes lib file_bytes 200 = Raise e) ->
  exists s',
    process_file query file s = (Ok tt, s')
    /\ events s'
       = events s ++ [EvRead (main.filename file); EvExtract (main.filename file);
                      EvClose (main.filename file)]
    /\ processed_results s'
       = processed_results s
         ++ [match main.if_query query with
             | Some _ =>
                 ItemAnalysis {| analysis_file_name := main.filename file;
                                 analysis := py "Nenhum texto extraído do arquivo." |}
             | None =>
                 ItemSummary {| summary_file_name := main.filename file;
                                summary := py "Nenhum texto extraído do arquivo." |}
             end]
    /\ files_failed (log_result_summary s') = files_failed (log_result_summary s) + 1.
Proof.
  intros Hct Hr Hc. apply (turn_without_text query file file_bytes s Hr).
  unfold main.extract. rewrite Hct. cbn [main.opt_eqb]. rewrite str_eqb_refl, pdf_text.
  destruct Hc as [->|[e ->]]; reflexivity.
Qed.

(** X15. An image that cannot be opened, or on which the OCR engine
    raises, is not reported as an error of the file either: the extraction
    returns the empty text, and the handler takes the "Nenhum texto
    extraído" branch, does not call the language model and counts the file
    as failed. *)
Theorem X15_unreadable_image_has_no_text (query : option str) (file : main.UploadFile)
        (file_bytes : bytes) (m : str) (s : State) :
  main.content_type file = Some m ->
  In m [py "image/png"; py "image/jpeg"] ->
  main.read file = Ok file_bytes ->
  (exists e, ocr_service.Image_open lib file_bytes = Raise e)
  \/ (exists image e,
        ocr_service.Image_open lib file_bytes = Ok image
        /\ ocr_service.image_to_string lib image ocr_service.TESSERACT_LANG = Raise e) ->
  exists s',
    process_file query file s = (Ok tt, s')
    /\ events s'
       = events s ++ [EvRead (main.filename file); EvExtract (main.filename file);
                      EvClose (main.filename file)]
    /\ processed_results s'
       = processed_results s
         ++ [match main.if_query query with
             | Some _ =>
                 ItemAnalysis {| analysis_file_name := main.filename file;
                                 analysis := py "Nenhum texto extraído do arquivo." |}
             | None =>
                 ItemSummary {| summary_file_name := main.filename file;
                                summary := py "Nenhum texto extraído do arquivo." |}
             end]
    /\ files_failed (log_result_summary s') = files_failed (log_result_summary s) + 1.
Proof.
  intros Hct Hm Hr Ho. apply (turn_without_text query file file_bytes s Hr).
  unfold main.extract. rewrite Hct.
  assert (main.opt_eqb (Some m) (py "application/pdf") = false) as E1.
  { simpl in Hm. destruct Hm as [<-|[<-|[]]]; vm_compute; reflexivity. }
  assert (main.opt_in (Some m) [py "image/png"; py "image/jpeg"] = true) as E2.
  { apply opt_in_In. exists m. split; [reflexivity|exact Hm]. }
  rewrite E1, E2. unfold ocr_service.extract_text_from_image_bytes.
  destruct Ho as [[e ->]|[image [e [-> Hs]]]]; [reflexivity|].
  simpl. now rewrite Hs.
Qed.

End UnreadableFiles.

Lemma X14_unreadable_pdf_has_no_text_witness :
  exists s',
    main.process_file
      (ocr_service.extract_text_from_pdf_bytes Sample.ocr_lib)
      (ocr_service.extract_text_from_image_bytes Sample.ocr_lib)
      (fun text => llm_service.generate_summary (app.llm Sample.globals) text 150 30)
      (fun text query =>
         llm_service.analyze_resume_with_query (app.llm Sample.globals) text query 200)
      None
      {| main.filename := py "corrompido.pdf";
         main.content_type := Some (py "application/pdf");
         main.read := Ok [] |}
      Sample.start
    = (Ok tt, s')
    /\ events s'
       = events Sample.start
         ++ [EvRead (py "corrompido.pdf"); EvExtract (py "corrompido.pdf");
             EvClose (py "corrompido.pdf")]
    /\ processed_results s'
       = processed_results Sample.start
         ++ [ItemSummary {| summary_file_name := py "corrompido.pdf";
                            summary := py "Nenhum texto extraído do arquivo." |}]
    /\ files_failed (log_result_summary s')
       = files_failed (log_result_summary Sample.start) + 1.
Proof.
  apply (X14_unreadable_pdf_has_no_text Sample.ocr_lib _ _ None
           {| main.filename := py "corrompido.pdf";
              main.content_type := Some (py "application/pdf");
              main.read := Ok [] |}
           [] Sample.start eq_refl eq_refl).
  right. eexists. reflexivity.
Defined.

Lemma X15_unreadable_image_has_no_text_witness :
  exists s',
    main.process_file
      (ocr_service.extract_text_from_pdf_bytes Sample.ocr_lib)
      (ocr_service.extract_text_from_image_bytes Sample.ocr_lib)
      (fun text => llm_service.generate_summary (app.llm Sample.globals) text 150 30)
      (fun text query =>
         llm_service.analyze_resume_with_query (app.llm Sample.globals) text query 200)
      None
      {| main.filename := py "borrado.png";
         main.content_type := Some (py "image/png");
         main.read := Ok (Sample.text_bytes "?") |}
      Sample.start
    = (Ok tt, s')
    /\ events s'
       = events Sample.start
         ++ [EvRead (py "borrado.png"); EvExtract (py "borrado.png");
             EvClose (py "borrado.png")]
    /\ processed_results s'
       = processed_results Sample.start
         ++ [ItemSummary {| summary_file_name := py "borrado.png";
                            summary := py "Nenhum texto extraído do arquivo." |}]
    /\ files_failed (log_result_summary s')
       = files_failed (log_result_summary Sample.start) + 1.
Proof.
  apply (X15_unreadable_image_has_no_text Sample.ocr_lib _ _ None
           {| main.filename := py "borrado.png";
              main.content_type := Some (py "image/png");
              main.read := Ok (Sample.text_bytes "?") |}
           (Sample.text_bytes "?") (py "image/png") Sample.start eq_refl).
  - left. reflexivity.
  - reflexivity.
  - right. eexists. eexists. split; reflexivity.
Defined.

(* ------------------------------------------------------------------ *)
(** ** What the ids of a request are used for *)

(** X16. The user id and the request id have no bearing on how a request
    is treated: two requests with the same files and the same query, under
    any user ids and request ids and from any states, either both end with
    the same exception (the one of the validation loop, or the one
    [log_usage] raises) or are both answered with the same results. (The
    request id is echoed in the response and, with the user id, written to
    the log; nothing is decided on them.) *)
Theorem X16_ids_do_not_matter
        (extract_text_from_pdf_bytes extract_text_from_image_bytes : bytes -> Result str)
        (generate_summary : str -> Result str)
        (analyze_resume_with_query : str -> str -> Result str)
        (lib : db_service.Lib) (g : db_service.Globals)
        (iter_ALLOWED_MIME_TYPES : list str)
        (validation_text : list ResultItem -> str)
        (files : list main.UploadFile) (query : option str)
        (user_id1 request_id1 user_id2 request_id2 : str) (s1 s2 : State) :
  match
    fst (main.process_resumes_endpoint
           extract_text_from_pdf_bytes extract_text_from_image_bytes
           generate_summary analyze_resume_with_query
           (db_service.log_usage lib g) iter_ALLOWED_MIME_TYPES validation_text
           files user_id1 request_id1 query s1),
    fst (main.process_resumes_endpoint
           extract_text_from_pdf_bytes extract_text_from_image_bytes
           generate_summary analyze_resume_with_query
           (db_service.log_usage lib g) iter_ALLOWED_MIME_TYPES validation_text
           files user_id2 request_id2 query s2)
  with
  | Ok r1, Ok r2 => main.results_of r1 = main.results_of r2
  | Raise e1, Raise e2 => e1 = e2
  | _, _ => False
  end.
Proof.
  destruct (all_pass_or_one_fails files) as [Hv|Hx].
  - rewrite !endpoint_accepts by exact Hv. unfold closing_result. cbn [fst].
    destruct (db_service.log_outcome lib g) as [u|e]; [|reflexivity].
    now rewrite !built_response_results.
  - destruct (endpoint_rejects extract_text_from_pdf_bytes
                extract_text_from_image_bytes generate_summary
                analyze_resume_with_query iter_ALLOWED_MIME_TYPES validation_text
                files query Hx) as [k [detail [_ Hrun]]].
    rewrite !Hrun. reflexivity.
Qed.
